(** * iFitBot: trainer assignment, report generation and the nutrition arithmetic

    A shallow embedding of the two versions of [geminiService.ts] found in
    the repository:

    - the earlier service ([src/unnamed/part_000]), whose
      [generateWorkoutPlan] carries the "Smart Trainer Assignment Logic"
      and whose [generateAssessmentReport] spells the nutrition arithmetic
      out in its prompt and substitutes a zeroed report on most failures;
    - the current service ([src/services/geminiService.ts]), whose
      [generateWorkoutPlan] draws the trainer uniformly and whose
      [generateAssessmentReport] re-throws every failure.

    Conventions.  JavaScript numbers are modelled as exact rationals [Q];
    [Math.random()] is an explicit argument [r] (a rational, in [0,1) by the
    contract of the random source); a call that may throw returns a
    [Completion]; the generative-AI service and [JSON.parse] are parameters
    of the functions that call them. *)

From Stdlib Require Import QArith Qround ZArith List String Bool Lia Lqa.
Import ListNotations.

Open Scope string_scope.

(** ** Data model ([types.ts], src/unnamed/part_001) *)

Inductive Gender := male | female.

Inductive DailyActivity :=
  sedentary | lightly_active | moderately_active | very_active.

(** The fields of [QuizData] that the services read.  [goal] is kept as the
    string it is at run time: [generateWorkoutPlan] uses it as a key into a
    [Record<string, string>]. *)
Record QuizData := mkQuizData {
  gender : Gender;
  age : Q;
  currentWeight : Q;
  height : Q;
  goal : string;
  targetWeight : Q;
  targetPeriodWeeks : Q;
  bodyImage : option string;
  dailyActivity : DailyActivity;
  gymDaysPerWeek : Q
}.

Record Numbers := mkNumbers {
  current_maintenance_calories : Q;
  daily_calorie_deficit_needed : Q;
  target_intake_kcal : Q;
  target_burn_per_day_activity : Q
}.

(** [adjusted_timeline_weeks?: number] is an optional field. *)
Record Timeline := mkTimeline {
  excess_fat_kg : Q;
  weeks_to_goal : Q;
  projected_loss_per_week_kg : Q;
  is_timeline_realistic : bool;
  adjusted_timeline_weeks : option Q
}.

Record NutritionTargets := mkNutritionTargets {
  recommended_calories_kcal : Q;
  protein_g : Q;
  water_l : Q;
  carbs_g_range : option (Q * Q);
  fats_g_range : option (Q * Q)
}.

Inductive BandStatus := below | within | above.

Record BodyComp := mkBodyComp {
  estimated_bf_percent : Q;
  bf_ideal_band : Q * Q;
  bf_status : BandStatus;
  estimated_tbw_percent : Q;
  tbw_typical_band : Q * Q;
  tbw_status : BandStatus;
  visual_analysis_notes : option string
}.

Record Flag := mkFlag { issue : string; severity : string; why : string }.

Record ReportData := mkReportData {
  numbers : Numbers;
  timeline : Timeline;
  nutrition_targets : NutritionTargets;
  body_comp : BodyComp;
  flags : list Flag;
  methodology : list string;
  report_markdown : string
}.

(** ** JavaScript fragments shared by both services *)

(** [arr[i]] for a number [i]: [undefined] ([None]) outside [0 .. length-1]. *)
Definition js_index {A : Type} (arr : list A) (i : Z) : option A :=
  if (i <? 0)%Z then None else nth_error arr (Z.to_nat i).

(** [arr[Math.floor(Math.random() * arr.length)]] with [Math.random() = r].
    The product is exact here and rounded to a double in the code, so the
    two can differ in the slot when [r * length] lies within a rounding
    error of an integer; statements on which slot a value of [r] selects
    keep a margin below the boundary for that reason. *)
Definition random_element {A : Type} (arr : list A) (r : Q) : option A :=
  js_index arr (Qfloor (r * inject_Z (Z.of_nat (List.length arr)))).

(** Probability of drawing [x] when every slot of [pool] is equally likely. *)
Definition pool_probability (pool : list string) (x : string) : Q :=
  inject_Z (Z.of_nat (count_occ string_dec pool x))
  / inject_Z (Z.of_nat (List.length pool)).

(** ** The nutrition arithmetic

    "PART 2: THE MATH (Execute Step-by-Step)" of the prompt built by
    [generateAssessmentReport] in src/unnamed/part_000 (steps 1 to 5).  The
    service itself performs none of it: the steps are instructions to the
    generative model, and this module is what they prescribe, step by step,
    on the no-image path (PART 3 lets the model raise the TDEE of a muscular
    user when a picture is supplied). *)
Module Arithmetic.

Open Scope Q_scope.

Definition Qlt_bool (x y : Q) : bool := negb (Qle_bool y x).

(** Step 1, Mifflin-St Jeor:
    Men: (10 x weight) + (6.25 x height) - (5 x age) + 5;
    Women: (10 x weight) + (6.25 x height) - (5 x age) - 161. *)
Definition BMR (g : Gender) (weight height_cm years : Q) : Q :=
  match g with
  | male => 10 * weight + 6.25 * height_cm - 5 * years + 5
  | female => 10 * weight + 6.25 * height_cm - 5 * years - 161
  end.

(** Step 2, the activity multiplier. *)
Definition activity_multiplier (a : DailyActivity) : Q :=
  match a with
  | sedentary => 1.2
  | lightly_active => 1.375
  | moderately_active => 1.55
  | very_active => 1.725
  end.

Definition TDEE_of (bmr : Q) (a : DailyActivity) : Q :=
  bmr * activity_multiplier a.

Definition bmr_of (q : QuizData) : Q :=
  BMR (gender q) (currentWeight q) (height q) (age q).

(** [current_maintenance_calories] *)
Definition TDEE (q : QuizData) : Q := TDEE_of (bmr_of q) (dailyActivity q).

(** Step 3: 'excess_fat_kg' = Current Weight - Target Weight.  (If
    negative/gaining muscle, set to 0).  The difference is negative when
    the target lies above the current weight, the muscle-gain case. *)
Definition excess_fat (q : QuizData) : Q :=
  let d := currentWeight q - targetWeight q in
  if Qlt_bool d 0 then 0 else d.

(** Total Calorie Gap = excess_fat_kg * 7700 kcal. *)
Definition total_calorie_gap (q : QuizData) : Q := excess_fat q * 7700.

(** 'daily_calorie_deficit_needed' = Total Calorie Gap / (Target Weeks * 7).
    No guard on the divisor is prescribed.  (Division in [Q] is total, with
    x / 0 = 0; nothing below relies on the value at a zero divisor.) *)
Definition deficit_needed (q : QuizData) : Q :=
  total_calorie_gap q / (targetPeriodWeeks q * 7).

(** Step 4: Min Safe Intake: 1200 kcal (Women), 1500 kcal (Men). *)
Definition min_safe_intake (g : Gender) : Q :=
  match g with
  | female => 1200
  | male => 1500
  end.

Definition max_safe_deficit : Q := 1000.

(** If 'daily_calorie_deficit_needed' > 1000 OR (TDEE - Deficit) < Min Safe
    Intake: the requested timeline is not realistic. *)
Definition unrealistic (q : QuizData) : bool :=
  Qlt_bool max_safe_deficit (deficit_needed q)
  || Qlt_bool (TDEE q - deficit_needed q) (min_safe_intake (gender q)).

Definition is_muscle_gain (q : QuizData) : bool :=
  String.eqb (goal q) "gain_muscle".

(** The prompt leaves three choices to whoever carries the steps out: the
    safe deficit ("a safe 500-750 kcal daily deficit"), the surplus of a
    muscle-gain plan ("TDEE + 250-500 surplus") and the suggested activity
    burn ("e.g., 300-500").  They are the parameters of this section. *)
Section Policy.

Variable safe_deficit : Q.
Variable surplus : Q.
Variable activity_burn : Q.

(** Modelled from the spec: the prompt only says "Calculate
    'adjusted_timeline_weeks' based on a safe 500-750 kcal daily deficit";
    the formula, total_energy_gap / (safe_deficit x 7), is the
    specification's. *)
Definition adjusted_weeks (q : QuizData) : Q :=
  total_calorie_gap q / (safe_deficit * 7).

(** Set 'is_timeline_realistic' = FALSE and calculate
    'adjusted_timeline_weeks' when the check fails; otherwise the timeline
    stands and no adjusted value is given. *)
Definition realism_flag (q : QuizData) : bool := negb (unrealistic q).

Definition adjusted_timeline (q : QuizData) : option Q :=
  if unrealistic q then Some (adjusted_weeks q) else None.

(** The deficit the targets are computed from: "Re-calculate targets based
    on the SAFE deficit, not the requested one." *)
Definition applied_deficit (q : QuizData) : Q :=
  if unrealistic q then safe_deficit else deficit_needed q.

(** Step 5: 'target_intake_kcal': TDEE - Safe Deficit.  If Goal is Muscle
    Gain: Set Intake to TDEE + 250-500 surplus.  This is the subtraction of
    step 5 alone: how the model is to "Ensure it is safe (min 1200/1500)",
    as the response schema also asks, is left to the model and is not part
    of this definition, which only serves to fill sample reports. *)
Definition target_intake (q : QuizData) : Q :=
  if is_muscle_gain q then TDEE q + surplus
  else TDEE q - applied_deficit q.

Definition numbers_of (q : QuizData) : Numbers :=
  {| current_maintenance_calories := TDEE q;
     daily_calorie_deficit_needed := deficit_needed q;
     target_intake_kcal := target_intake q;
     target_burn_per_day_activity := activity_burn |}.

(** [weeks_to_goal] and [projected_loss_per_week_kg] have no rule in the
    prompt; they are passed in. *)
Definition timeline_of (q : QuizData) (weeks loss_per_week : Q) : Timeline :=
  {| excess_fat_kg := excess_fat q;
     weeks_to_goal := weeks;
     projected_loss_per_week_kg := loss_per_week;
     is_timeline_realistic := realism_flag q;
     adjusted_timeline_weeks := adjusted_timeline q |}.

End Policy.

End Arithmetic.

(** ** Report generation *)

(** The constructor of a thrown value, as far as [instanceof] can tell. *)
Inductive ErrorClass := SyntaxError | TypeError | ApiError | PlainError.

Record JsError := mkJsError { error_class : ErrorClass; message : string }.

(** How a call ends: with a value or with a thrown error. *)
Inductive Completion (A : Type) : Type :=
| Normal (a : A)
| Throw (e : JsError).

Arguments Normal {A} a.
Arguments Throw {A} e.

Definition bind {A B : Type} (c : Completion A) (k : A -> Completion B)
  : Completion B :=
  match c with
  | Normal a => k a
  | Throw e => Throw e
  end.

Notation "x <- c ;; k" := (bind c (fun x => k))
  (at level 61, c at next level, right associativity).

(** [try { body } catch (err) { handler }] *)
Definition try_catch {A : Type} (body : Completion A)
  (handler : JsError -> Completion A) : Completion A :=
  match body with
  | Normal a => Normal a
  | Throw err => handler err
  end.

(** [err instanceof SyntaxError] *)
Definition instanceof_SyntaxError (err : JsError) : bool :=
  match error_class err with
  | SyntaxError => true
  | _ => false
  end.

(** The argument of [ai.models.generateContent]: the model name, the prompt
    (a template whose only holes are filled from the quiz data), the
    optional inline image and the thinking budget. *)
Record GenerateContentParameters := mkParameters {
  model : string;
  prompt_data : QuizData;
  inlineData : option (string * string);
  thinkingBudget : option Z
}.

(** [JSON.parse(response.text)], given what [JSON.parse] does on a string
    (the parsed value, or [None] where it throws its [SyntaxError]).
    [JSON.parse(undefined)] throws too.  The result is used at type
    [ReportData] without any validation. *)
Definition parse_report (JSON_parse : string -> option ReportData)
  (text : option string) : Completion ReportData :=
  match text with
  | None =>
      Throw (mkJsError SyntaxError "undefined is not valid JSON")
  | Some s =>
      match JSON_parse s with
      | Some report => Normal report
      | None => Throw (mkJsError SyntaxError "Unexpected token in JSON")
      end
  end.

(** The image part pushed onto [requestParts], if any, given the result of
    [s.match(/^data:(.+);base64,(.+)$/)] (the two groups, or [null]). *)
Definition image_part (match_data_url : string -> option (string * string))
  (q : QuizData) : option (string * string) :=
  match bodyImage q with
  | Some "" => None
  | Some img => match_data_url img
  | None => None
  end.

(** ** Trainer assignment *)

Record Trainer := mkTrainer { name : string; specialties : list string }.

Definition allTrainers : list Trainer :=
  [ mkTrainer "Athul" ["Weight Loss"; "Lean Body"];
    mkTrainer "Athithiya" ["Lean Body"; "Bodybuilding"];
    mkTrainer "Saieel" ["Weight Loss"; "Bodybuilding"] ].

Definition trainerNames : list string := map name allTrainers.

(** ** The earlier service (src/unnamed/part_000) *)
Module EarlierService.

(** *** Smart trainer assignment *)


Definition goalToSpecialtyMap : list (string * string) :=
  [ ("lose_weight", "Weight Loss");
    ("gain_muscle", "Bodybuilding");
    ("get_shredded", "Lean Body") ].

(** Property names every object literal inherits from [Object.prototype]:
    indexing the map with one of them yields a function or an object, not
    [undefined]. *)
Definition objectPrototypeKeys : list string :=
  [ "constructor"; "toString"; "toLocaleString"; "valueOf";
    "hasOwnProperty"; "isPrototypeOf"; "propertyIsEnumerable";
    "__proto__"; "__defineGetter__"; "__defineSetter__";
    "__lookupGetter__"; "__lookupSetter__" ].

(** The value of [targetSpecialty]. *)
Inductive Specialty :=
| OwnValue (s : string)   (* a string stored in the map *)
| InheritedValue          (* a member of Object.prototype *)
| Nullish.                (* null or undefined *)

Fixpoint own_property (m : list (string * string)) (k : string)
  : option string :=
  match m with
  | [] => None
  | (k', v) :: m' => if String.eqb k' k then Some v else own_property m' k
  end.

(** [goalToSpecialtyMap[userGoal]] *)
Definition map_get (k : string) : Specialty :=
  match own_property goalToSpecialtyMap k with
  | Some v => OwnValue v
  | None =>
      if existsb (String.eqb k) objectPrototypeKeys
      then InheritedValue else Nullish
  end.

(** [const userGoal = quizData?.goal;
    const targetSpecialty = userGoal ? goalToSpecialtyMap[userGoal] : null;]
    An absent goal and the empty string are falsy. *)
Definition targetSpecialty (userGoal : option string) : Specialty :=
  match userGoal with
  | None => Nullish
  | Some "" => Nullish
  | Some g => map_get g
  end.

(** Truthiness, as tested by [if (targetSpecialty)]. *)
Definition truthy (t : Specialty) : bool :=
  match t with
  | OwnValue "" => false
  | OwnValue _ => true
  | InheritedValue => true
  | Nullish => false
  end.

(** [trainer.specialties.includes(targetSpecialty)]: strict equality, so a
    non-string never matches a specialty tag. *)
Definition includes (tags : list string) (t : Specialty) : bool :=
  match t with
  | OwnValue s => existsb (String.eqb s) tags
  | _ => false
  end.

Definition specialistWeight : nat := 5.
Definition generalistWeight : nat := 1.

(** The [forEach] with its inner [for] loop pushing [trainer.name]
    [weight] times. *)
Definition weightedPool (t : Specialty) : list string :=
  flat_map
    (fun trainer =>
       let weight :=
         if includes (specialties trainer) t
         then specialistWeight else generalistWeight in
       repeat (name trainer) weight)
    allTrainers.

(** The value of [assignedTrainerName] after the [if]/[else]; [None] is
    JavaScript's [undefined]. *)
Definition assignedTrainerName (userGoal : option string) (r : Q)
  : option string :=
  let t := targetSpecialty userGoal in
  if truthy t
  then random_element (weightedPool t) r
  else random_element trainerNames r.

(** The pool the draw is made from, for a given goal. *)
Definition pool_for (userGoal : option string) : list string :=
  let t := targetSpecialty userGoal in
  if truthy t then weightedPool t else trainerNames.

(** *** Assessment report *)

(** The zeroed report of the [catch] block (its markdown text abridged). *)
Definition fallbackReport : ReportData :=
  {| report_markdown := "# Failed to generate report.";
     numbers :=
       {| current_maintenance_calories := 0;
          daily_calorie_deficit_needed := 0;
          target_intake_kcal := 0;
          target_burn_per_day_activity := 0 |};
     timeline :=
       {| excess_fat_kg := 0;
          weeks_to_goal := 0;
          projected_loss_per_week_kg := 0;
          is_timeline_realistic := true;
          adjusted_timeline_weeks := None |};
     nutrition_targets :=
       {| recommended_calories_kcal := 0;
          protein_g := 0;
          water_l := 0;
          carbs_g_range := None;
          fats_g_range := None |};
     body_comp :=
       {| estimated_bf_percent := 0;
          bf_ideal_band := (0, 0);
          bf_status := within;
          estimated_tbw_percent := 0;
          tbw_typical_band := (0, 0);
          tbw_status := within;
          visual_analysis_notes := Some "Analysis failed." |};
     flags := [];
     methodology := [] |}.

Definition parse_error : JsError :=
  mkJsError PlainError
    "AI_JSON_PARSE_ERROR: Failed to parse the structured report from the AI.".

Section WithCollaborators.

(** The generative-AI call: it may throw, and the [text] of its response
    may be [undefined]. *)
Variable generateContent :
  GenerateContentParameters -> Completion (option string).
Variable JSON_parse : string -> option ReportData.
Variable match_data_url : string -> option (string * string).

(** What is sent: the prompt built from the quiz data, the image when
    there is one, no thinking budget. *)
Definition request_parameters (q : QuizData) : GenerateContentParameters :=
  {| model := "gemini-2.5-flash";
     prompt_data := q;
     inlineData := image_part match_data_url q;
     thinkingBudget := None |}.

(** The body of the [try] block. *)
Definition report_body (q : QuizData) : Completion ReportData :=
  response <- generateContent (request_parameters q) ;;
  reportData <- parse_report JSON_parse response ;;
  Normal reportData.

(** [catch (err)]: a [SyntaxError] becomes the AI_JSON_PARSE_ERROR, any
    other failure the zeroed report. *)
Definition generateAssessmentReport (q : QuizData) : Completion ReportData :=
  try_catch (report_body q)
    (fun err =>
       if instanceof_SyntaxError err
       then Throw parse_error
       else Normal fallbackReport).

End WithCollaborators.

End EarlierService.

(** ** The current service (src/services/geminiService.ts) *)
Module CurrentService.

(** *** Trainer assignment *)


(** [let assignedTrainerName = "Athul"; const trainers = allTrainers.map(t
    => t.name); assignedTrainerName = trainers[Math.floor(Math.random() *
    trainers.length)];]  The function receives [quizData] and does not
    read it here. *)
Definition assignedTrainerName (quizData : option QuizData) (r : Q)
  : option string :=
  let trainers := map name allTrainers in
  random_element trainers r.

(** *** Assessment report *)

Section WithCollaborators.

(** The generative-AI call: it may throw, and the [text] of its response
    may be [undefined]. *)
Variable generateContent :
  GenerateContentParameters -> Completion (option string).
Variable JSON_parse : string -> option ReportData.
Variable match_data_url : string -> option (string * string).

(** What is sent: as before, to another model and with a thinking
    budget. *)
Definition request_parameters (q : QuizData) : GenerateContentParameters :=
  {| model := "gemini-3-pro-preview";
     prompt_data := q;
     inlineData := image_part match_data_url q;
     thinkingBudget := Some 32768%Z |}.

(** The body of the [try] block. *)
Definition report_body (q : QuizData) : Completion ReportData :=
  response <- generateContent (request_parameters q) ;;
  reportData <- parse_report JSON_parse response ;;
  Normal reportData.

(** [catch (err) { console.error(...); throw err; }] *)
Definition generateAssessmentReport (q : QuizData) : Completion ReportData :=
  try_catch (report_body q) (fun err => Throw err).

End WithCollaborators.

End CurrentService.

(** ** The invariant of a timeline

    [adjusted_timeline_weeks] is present exactly when
    [is_timeline_realistic] is false.  The type of [types.ts] does not
    enforce it. *)
Definition timeline_invariant (t : Timeline) : Prop :=
  (exists w, adjusted_timeline_weeks t = Some w)
  <-> is_timeline_realistic t = false.

(** ** Quiz data used in the examples *)

(** The worked example of the specification: 100 kg, 175 cm, 30 years,
    male, moderately active, 80 kg in 8 weeks. *)
Definition worked_example : QuizData :=
  {| gender := male; age := 30; currentWeight := 100; height := 175;
     goal := "lose_weight"; targetWeight := 80; targetPeriodWeeks := 8;
     bodyImage := None; dailyActivity := moderately_active;
     gymDaysPerWeek := 3 |}.

(** A sedentary woman of 60 kg, 160 cm and 40 years who wants to reach
    50 kg in 8 weeks. *)
Definition low_tdee_quiz : QuizData :=
  {| gender := female; age := 40; currentWeight := 60; height := 160;
     goal := "lose_weight"; targetWeight := 50; targetPeriodWeeks := 8;
     bodyImage := None; dailyActivity := sedentary;
     gymDaysPerWeek := 2 |}.

(** Positive weight, height and age for which Mifflin-St Jeor is negative. *)
Definition negative_bmr_quiz : QuizData :=
  {| gender := male; age := 90; currentWeight := 10; height := 50;
     goal := "lose_weight"; targetWeight := 9; targetPeriodWeeks := 8;
     bodyImage := None; dailyActivity := sedentary;
     gymDaysPerWeek := 0 |}.

(** The worked example with a target period of zero weeks. *)
Definition zero_weeks_quiz : QuizData :=
  {| gender := male; age := 30; currentWeight := 100; height := 175;
     goal := "lose_weight"; targetWeight := 80; targetPeriodWeeks := 0;
     bodyImage := None; dailyActivity := moderately_active;
     gymDaysPerWeek := 3 |}.

(** A report as the AI may return it for the worked example. *)
Definition sample_report : ReportData :=
  {| numbers := Arithmetic.numbers_of 500 250 300 worked_example;
     timeline := Arithmetic.timeline_of 500 worked_example 44 (1 # 2);
     nutrition_targets :=
       {| recommended_calories_kcal := 2520; protein_g := 160;
          water_l := 3; carbs_g_range := Some (200, 300);
          fats_g_range := Some (60, 90) |};
     body_comp :=
       {| estimated_bf_percent := 30; bf_ideal_band := (10, 20);
          bf_status := above; estimated_tbw_percent := 50;
          tbw_typical_band := (50, 65); tbw_status := within;
          visual_analysis_notes := None |};
     flags := [];
     methodology := ["Mifflin-St Jeor"];
     report_markdown := "# Your plan" |}.

(** Collaborators for the examples: an AI call that answers with a text,
    one whose connection fails, a parser that accepts the text and one
    that rejects it, and a matcher that finds no data URL. *)
Definition ai_answers (text : string)
  : GenerateContentParameters -> Completion (option string) :=
  fun _ => Normal (Some text).

Definition ai_unavailable
  : GenerateContentParameters -> Completion (option string) :=
  fun _ => Throw (mkJsError ApiError "503 Service Unavailable").

Definition parse_accepts : string -> option ReportData :=
  fun _ => Some sample_report.

Definition parse_rejects : string -> option ReportData := fun _ => None.

Definition no_data_url : string -> option (string * string) := fun _ => None.

(** * The remaining functions of the services and their callers *)

From Stdlib Require Import Ascii.

(** ** Data URLs

    JavaScript strings are modelled by their UTF-8 bytes.  The regular
    expression [/^data:(.+);base64,(.+)$/] has no flag: [^] and [$] are the
    two ends of the string and the dot accepts every character but the
    four line terminators LF, CR, U+2028 and U+2029 (the last two are the
    byte sequences E2 80 A8 and E2 80 A9). *)

Definition byte (n : nat) : ascii := Ascii.ascii_of_nat n.

Definition is_empty (s : string) : bool :=
  match s with
  | EmptyString => true
  | String _ _ => false
  end.

(** What is left of [s] after the prefix [p], if [s] starts with it. *)
Fixpoint strip_prefix (p s : string) : option string :=
  match p with
  | EmptyString => Some s
  | String a p' =>
      match s with
      | EmptyString => None
      | String b s' => if Ascii.eqb a b then strip_prefix p' s' else None
      end
  end.

Definition starts_with (p s : string) : bool :=
  match strip_prefix p s with
  | Some _ => true
  | None => false
  end.

Definition line_terminators : list string :=
  [ String (byte 10) EmptyString;
    String (byte 13) EmptyString;
    String (byte 226) (String (byte 128) (String (byte 168) EmptyString));
    String (byte 226) (String (byte 128) (String (byte 169) EmptyString)) ].

(** The dot refuses the character [s] starts with. *)
Definition line_terminator_at (s : string) : bool :=
  existsb (fun t => starts_with t s) line_terminators.

(** Every position of [s] is accepted by the dot. *)
Fixpoint dot_star (s : string) : bool :=
  match s with
  | EmptyString => true
  | String _ rest => negb (line_terminator_at s) && dot_star rest
  end.

(** [(.+)$]: the whole of what is left, which must not be empty. *)
Definition last_group (s : string) : option string :=
  if negb (is_empty s) && dot_star s then Some s else None.

(** [;base64,(.+)$] at the current position. *)
Definition after_first_group (s : string) : option string :=
  match strip_prefix ";base64," s with
  | Some rest => last_group rest
  | None => None
  end.

(** [(.+);base64,(.+)$] with [taken] already in the first group.  The
    group is greedy: it first tries to take one more character and gives
    characters back one at a time until the rest of the pattern matches. *)
Fixpoint first_group (taken s : string) : option (string * string) :=
  match s with
  | EmptyString => None
  | String c rest =>
      let longer :=
        if line_terminator_at s then None
        else first_group (taken ++ String c EmptyString) rest in
      match longer with
      | Some groups => Some groups
      | None =>
          if is_empty taken then None
          else
            match after_first_group s with
            | Some payload => Some (taken, payload)
            | None => None
            end
      end
  end.

(** [s.match(/^data:(.+);base64,(.+)$/)]: the two groups, or [null]. *)
Definition match_data_url (s : string) : option (string * string) :=
  match strip_prefix "data:" s with
  | Some rest => first_group EmptyString rest
  | None => None
  end.

(** [`${x}`] for a string that may be [undefined]. *)
Definition template_string (x : option string) : string :=
  match x with
  | Some s => s
  | None => "undefined"
  end.

(** [`data:${mimeType};base64,${data}`] *)
Definition data_url (mimeType data : option string) : string :=
  "data:" ++ template_string mimeType ++ ";base64," ++ template_string data.

Fixpoint contains_char (c : ascii) (s : string) : bool :=
  match s with
  | EmptyString => false
  | String b rest => Ascii.eqb c b || contains_char c rest
  end.

(** ** Image editing and generation (src/services/geminiService.ts) *)

(** The part of a [GenerateContentResponse] the image functions read.  Every
    level may be missing, as the optional chaining
    [response.candidates?.[0]?.content?.parts || []] allows for. *)
Module GenAI.

Record Blob := mkBlob { mimeType : option string; data : option string }.

Record Part := mkPart { text : option string; inlineData : option Blob }.

Record Content := mkContent { parts : option (list Part) }.

Record Candidate := mkCandidate { content : option Content }.

Record Response := mkResponse { candidates : option (list Candidate) }.

(** [response.candidates?.[0]?.content?.parts || []] *)
Definition first_candidate_parts (response : Response) : list Part :=
  match candidates response with
  | Some (c :: _) =>
      match content c with
      | Some body =>
          match parts body with
          | Some ps => ps
          | None => []
          end
      | None => []
      end
  | _ => []
  end.

(** What is sent to an image model: the model name, the source picture (for
    an edit), the text part and the image configuration (for a
    generation). *)
Record Request := mkRequest {
  image_model : string;
  source : option (string * string);
  instruction : string;
  imageConfig : option (string * string)
}.

End GenAI.

Module ImageStudio.

Definition invalid_image : JsError := mkJsError PlainError "Invalid image data".

Definition no_image : JsError := mkJsError PlainError "No image generated.".

(** [for (const part of ...) { if (part.inlineData) return `data:...`; }
    throw new Error("No image generated.");] *)
Fixpoint first_inline_image (ps : list GenAI.Part) : Completion string :=
  match ps with
  | [] => Throw no_image
  | part :: rest =>
      match GenAI.inlineData part with
      | Some blob => Normal (data_url (GenAI.mimeType blob) (GenAI.data blob))
      | None => first_inline_image rest
      end
  end.

Section WithImageModel.

Variable generateContent : GenAI.Request -> Completion GenAI.Response.

Definition editUserImage (base64Image prompt : string) : Completion string :=
  match match_data_url base64Image with
  | None => Throw invalid_image
  | Some (mimeType, data) =>
      response <- generateContent
        {| GenAI.image_model := "gemini-2.5-flash-image";
           GenAI.source := Some (mimeType, data);
           GenAI.instruction := prompt ++ " Return ONLY the edited image.";
           GenAI.imageConfig := None |} ;;
      first_inline_image (GenAI.first_candidate_parts response)
  end.

Definition generateMotivationImage (prompt aspectRatio : string)
  : Completion string :=
  response <- generateContent
    {| GenAI.image_model := "gemini-3-pro-image-preview";
       GenAI.source := None;
       GenAI.instruction := prompt;
       GenAI.imageConfig := Some (aspectRatio, "1K") |} ;;
  first_inline_image (GenAI.first_candidate_parts response).

End WithImageModel.

(** *** The page (src/pages/AIStudioPage.tsx)

    The React state of [AIStudioPage] and, as [alerts], the messages shown
    with [alert] so far (latest first). *)
Record State := mkState {
  activeTab : string;
  loading : bool;
  sourceImage : option string;
  editPrompt : string;
  editedResult : option string;
  genPrompt : string;
  aspectRatio : string;
  generatedResult : option string;
  alerts : list string
}.

Definition setLoading (b : bool) (st : State) : State :=
  {| activeTab := activeTab st; loading := b;
     sourceImage := sourceImage st; editPrompt := editPrompt st;
     editedResult := editedResult st; genPrompt := genPrompt st;
     aspectRatio := aspectRatio st; generatedResult := generatedResult st;
     alerts := alerts st |}.

Definition setEditedResult (r : option string) (st : State) : State :=
  {| activeTab := activeTab st; loading := loading st;
     sourceImage := sourceImage st; editPrompt := editPrompt st;
     editedResult := r; genPrompt := genPrompt st;
     aspectRatio := aspectRatio st; generatedResult := generatedResult st;
     alerts := alerts st |}.

Definition setGeneratedResult (r : option string) (st : State) : State :=
  {| activeTab := activeTab st; loading := loading st;
     sourceImage := sourceImage st; editPrompt := editPrompt st;
     editedResult := editedResult st; genPrompt := genPrompt st;
     aspectRatio := aspectRatio st; generatedResult := r;
     alerts := alerts st |}.

Definition alert (msg : string) (st : State) : State :=
  {| activeTab := activeTab st; loading := loading st;
     sourceImage := sourceImage st; editPrompt := editPrompt st;
     editedResult := editedResult st; genPrompt := genPrompt st;
     aspectRatio := aspectRatio st; generatedResult := generatedResult st;
     alerts := msg :: alerts st |}.

Section Handlers.

Variable generateContent : GenAI.Request -> Completion GenAI.Response.

(** The state once the promise returned by [handleEdit] has settled.
    [if (!sourceImage || !editPrompt) return;] leaves on a missing or
    empty picture and on an empty instruction. *)
Definition handleEdit (st : State) : State :=
  match sourceImage st with
  | None => st
  | Some picture =>
      if is_empty picture || is_empty (editPrompt st) then st
      else
        let st1 := setEditedResult None (setLoading true st) in
        let st2 :=
          match editUserImage generateContent picture (editPrompt st) with
          | Normal result => setEditedResult (Some result) st1
          | Throw _ => alert "Failed to edit image. Please try again." st1
          end in
        setLoading false st2
  end.

(** The state once the promise returned by [handleGenerate] has settled. *)
Definition handleGenerate (st : State) : State :=
  if is_empty (genPrompt st) then st
  else
    let st1 := setGeneratedResult None (setLoading true st) in
    let st2 :=
      match generateMotivationImage generateContent
              (genPrompt st) (aspectRatio st) with
      | Normal result => setGeneratedResult (Some result) st1
      | Throw _ => alert "Failed to generate image. Please try again." st1
      end in
    setLoading false st2.

End Handlers.

(** A part without inline data (a text part, say). *)
Definition no_inline (part : GenAI.Part) : Prop :=
  GenAI.inlineData part = None.

(** Collaborators for the examples: an answer whose first candidate holds a
    caption and then a picture, an answer with no candidate at all, a model
    that answers and one that fails. *)
Definition sample_image_response : GenAI.Response :=
  {| GenAI.candidates :=
       Some [ {| GenAI.content :=
                   Some {| GenAI.parts :=
                     Some [ GenAI.mkPart (Some "Here is your poster.") None;
                            GenAI.mkPart None
                              (Some (GenAI.mkBlob (Some "image/png")
                                                  (Some "iVBORw0KGgo="))) ]
                   |} |} ] |}.

Definition empty_image_response : GenAI.Response :=
  {| GenAI.candidates := None |}.

Definition image_model_answers (response : GenAI.Response)
  : GenAI.Request -> Completion GenAI.Response :=
  fun _ => Normal response.

Definition image_model_fails
  : GenAI.Request -> Completion GenAI.Response :=
  fun _ => Throw (mkJsError ApiError "429 Too Many Requests").

End ImageStudio.

(** ** The plan API ([types.ts], src/unnamed/part_001) *)
Module Plan.

Record Segment := mkSegment { duration_min : Q; notes : string }.

Record Conditioning := mkConditioning {
  style : string;
  conditioning_duration_min : Q;
  conditioning_notes : string
}.

Record StrengthExercise := mkStrengthExercise {
  movement : string;
  sets : Q;
  reps : string;
  rpe_or_tempo : string;
  alt_bodyweight : option string;
  alt_minimal : option string
}.

Record WorkoutDay := mkWorkoutDay {
  day_name : string;
  warmup : Segment;
  strength : list StrengthExercise;
  conditioning : Conditioning;
  cooldown : Segment
}.

Record WorkoutPhase := mkWorkoutPhase {
  phase_name : string;
  weeks : Q * Q;
  focus : string
}.

Record ProgressionPrinciple := mkProgressionPrinciple {
  title : string;
  description : string
}.

Record WorkoutGuideDraft := mkWorkoutGuideDraft {
  program_weeks : Q;
  weekly_days : Q;
  phases : list WorkoutPhase;
  progression_principle : ProgressionPrinciple;
  equipment_tier : string;
  days : list WorkoutDay;
  progression_notes : string;
  safety_notes : string
}.

Record ExtractedReportData := mkExtractedReportData {
  recommended_calories_kcal : option Q;
  current_burn_kcal : option Q;
  current_intake_kcal : option Q;
  calorie_gap_kcal : option Q;
  protein_target_g : option Q;
  water_target_l : option Q;
  predicted_loss_kg_per_week : option Q;
  weeks_to_lose_10kg : option Q;
  parse_notes : string
}.

(** [{ name: assignedTrainerName }]; the name is [undefined] when the draw
    left the array. *)
Record AssignedTrainer := mkAssignedTrainer { name : option string }.

Record CallToAction := mkCallToAction {
  cta_title : string;
  subtitle : string;
  button_label : string
}.

Record WorkoutPlanApiResponse := mkWorkoutPlanApiResponse {
  needs_assessment : bool;
  cta_copy : option CallToAction;
  assigned_trainer : option AssignedTrainer;
  extracted_from_report : option ExtractedReportData;
  workout_guide_draft : option WorkoutGuideDraft;
  presentation_markdown : option string;
  trainer_checklist : option (list string);
  signature_line : option string
}.

Record PendingWorkoutPlan := mkPendingWorkoutPlan {
  id : string;
  userEmail : string;
  userName : string;
  assignedTrainerName : string;
  status : string;
  generatedAt : string;
  approvedAt : option string;
  planData : WorkoutPlanApiResponse;
  quizData : option QuizData;
  trainerNotes : option string
}.

(** What [JSON.parse] gives for the plan, as far as the service looks:
    [null], on which reading a property throws, or any other value, with
    its [workout_guide_draft] and [presentation_markdown] (absent on a
    number, a string, a boolean or an object without them). *)
Inductive ResponseJson :=
| JsonNull
| JsonValue (draft : option WorkoutGuideDraft) (markdown : option string).

(** What is sent for a plan: the model, the client's name and data put
    into the prompt, and the picture of the report when there is one. *)
Record Request := mkRequest {
  plan_model : string;
  client_name : string;
  client_data : option QuizData;
  report_image : option (string * string)
}.

(** [requestParts] gets the picture when [reportImage] is a non-empty data
    URL. *)
Definition image_of (reportImage : option string) : option (string * string) :=
  match reportImage with
  | None => None
  | Some img => if is_empty img then None else match_data_url img
  end.

(** [JSON.parse(response.text)] followed by the two property reads. *)
Definition read_plan (JSON_parse : string -> option ResponseJson)
  (response_text : option string)
  : Completion (option WorkoutGuideDraft * option string) :=
  match response_text with
  | None => Throw (mkJsError SyntaxError "undefined is not valid JSON")
  | Some s =>
      match JSON_parse s with
      | None => Throw (mkJsError SyntaxError "Unexpected token in JSON")
      | Some JsonNull =>
          Throw (mkJsError TypeError "Cannot read properties of null")
      | Some (JsonValue draft markdown) => Normal (draft, markdown)
      end
  end.

End Plan.

(** ** [generateWorkoutPlan] *)

Module EarlierPlan.

Definition placeholderExtractedData : Plan.ExtractedReportData :=
  {| Plan.recommended_calories_kcal := None;
     Plan.current_burn_kcal := None;
     Plan.current_intake_kcal := None;
     Plan.calorie_gap_kcal := None;
     Plan.protein_target_g := None;
     Plan.water_target_l := None;
     Plan.predicted_loss_kg_per_week := None;
     Plan.weeks_to_lose_10kg := None;
     Plan.parse_notes := "AI failed to generate a plan." |}.

(** The response of the [catch] block (its markdown text abridged). *)
Definition placeholder : Plan.WorkoutPlanApiResponse :=
  {| Plan.needs_assessment := false;
     Plan.cta_copy := None;
     Plan.assigned_trainer := Some (Plan.mkAssignedTrainer (Some "Athul"));
     Plan.extracted_from_report := Some placeholderExtractedData;
     Plan.workout_guide_draft := None;
     Plan.presentation_markdown := Some "# Generation Error";
     Plan.trainer_checklist := None;
     Plan.signature_line := None |}.

Definition trainer_checklist : list string :=
  [ "Confirm the plan aligns with client goals.";
    "Check exercise selection for safety and effectiveness.";
    "Verify progression logic is appropriate for the client's fitness level." ].

Section WithCollaborators.

Variable generateContent : Plan.Request -> Completion (option string).
Variable JSON_parse : string -> option Plan.ResponseJson.

(** The body of the [try] block; [r] is the value of [Math.random()]. *)
Definition plan_body (reportImage : option string) (userName : string)
  (quizData : option QuizData) (r : Q)
  : Completion Plan.WorkoutPlanApiResponse :=
  let userGoal := option_map goal quizData in
  let assignedTrainerName := EarlierService.assignedTrainerName userGoal r in
  response <- generateContent
    {| Plan.plan_model := "gemini-2.5-flash";
       Plan.client_name := userName;
       Plan.client_data := quizData;
       Plan.report_image := Plan.image_of reportImage |} ;;
  fields <- Plan.read_plan JSON_parse response ;;
  Normal
    {| Plan.needs_assessment := false;
       Plan.cta_copy := None;
       Plan.assigned_trainer :=
         Some (Plan.mkAssignedTrainer assignedTrainerName);
       Plan.extracted_from_report := None;
       Plan.workout_guide_draft := fst fields;
       Plan.presentation_markdown := snd fields;
       Plan.trainer_checklist := Some trainer_checklist;
       Plan.signature_line := Some ("Draft by iFitBot AI for " ++ userName) |}.

Definition generateWorkoutPlan (reportImage : option string)
  (userName : string) (quizData : option QuizData) (r : Q)
  : Completion Plan.WorkoutPlanApiResponse :=
  try_catch (plan_body reportImage userName quizData r)
    (fun _ => Normal placeholder).

End WithCollaborators.

End EarlierPlan.

Module CurrentPlan.

Section WithCollaborators.

Variable generateContent : Plan.Request -> Completion (option string).
Variable JSON_parse : string -> option Plan.ResponseJson.

(** No [try] here: whatever is thrown reaches the caller. *)
Definition generateWorkoutPlan (reportImage : option string)
  (userName : string) (quizData : option QuizData) (r : Q)
  : Completion Plan.WorkoutPlanApiResponse :=
  let assignedTrainerName := CurrentService.assignedTrainerName quizData r in
  response <- generateContent
    {| Plan.plan_model := "gemini-2.5-flash";
       Plan.client_name := userName;
       Plan.client_data := quizData;
       Plan.report_image := Plan.image_of reportImage |} ;;
  fields <- Plan.read_plan JSON_parse response ;;
  Normal
    {| Plan.needs_assessment := false;
       Plan.cta_copy := None;
       Plan.assigned_trainer :=
         Some (Plan.mkAssignedTrainer assignedTrainerName);
       Plan.extracted_from_report := None;
       Plan.workout_guide_draft := fst fields;
       Plan.presentation_markdown := snd fields;
       Plan.trainer_checklist := Some ["Safety check"; "Progression check"];
       Plan.signature_line := Some ("Draft by iFitBot AI for " ++ userName) |}.

End WithCollaborators.

End CurrentPlan.

(** Collaborators for the examples. *)
Definition plan_model_answers (response_text : option string)
  : Plan.Request -> Completion (option string) :=
  fun _ => Normal response_text.

Definition plan_model_fails (e : JsError)
  : Plan.Request -> Completion (option string) :=
  fun _ => Throw e.

Definition plan_parse_gives (parsed : option Plan.ResponseJson)
  : string -> option Plan.ResponseJson :=
  fun _ => parsed.

(** ** The chat assistants and the trainer note *)
Module Chat.

Inductive Role := user | model.

Record ChatMessage := mkChatMessage { role : Role; text : string }.

(** [{ role: msg.role, parts: [{ text: msg.text }] }] *)
Record Content := mkContent { content_role : Role; parts : list string }.

Definition to_content (msg : ChatMessage) : Content :=
  {| content_role := role msg; parts := [text msg] |}.

(** [history.pop()]: the last element ([undefined] on an empty array) and
    the array it leaves behind. *)
Fixpoint pop {A : Type} (l : list A) : option A * list A :=
  match l with
  | [] => (None, [])
  | [x] => (Some x, [])
  | x :: rest => let (last, kept) := pop rest in (last, x :: kept)
  end.

(** What the system instruction is filled with. *)
Inductive SystemInstruction :=
| TrainerAssistant (userName : string) (quizData : option QuizData)
    (draft : option Plan.WorkoutGuideDraft)
| TrainerAssistantBrief (draft : option Plan.WorkoutGuideDraft)
| CalorieCoach
| CalorieCoachBrief.

(** [ai.chats.create({ model, history, config })] followed by
    [chat.sendMessage({ message })]. *)
Record Session := mkSession {
  chat_model : string;
  history : list Content;
  systemInstruction : SystemInstruction;
  message : string
}.

(** [userPrompt.parts[0].text] *)
Definition first_part_text (c : Content) : Completion string :=
  match parts c with
  | t :: _ => Normal t
  | [] => Throw (mkJsError TypeError "Cannot read properties of undefined")
  end.

(** The common shape of the four chat functions: convert, pop, leave with
    a fixed reply when there is no message, otherwise open the chat on the
    remaining history and send the text of the last message. *)
Definition converse
  (sendMessage : Session -> Completion (option string))
  (chat_model : string) (instruction : SystemInstruction)
  (no_message : string) (chatHistory : list ChatMessage)
  : Completion (option string) :=
  let history := map to_content chatHistory in
  match pop history with
  | (None, _) => Normal (Some no_message)
  | (Some userPrompt, history) =>
      message <- first_part_text userPrompt ;;
      response <- sendMessage
        {| chat_model := chat_model;
           history := history;
           systemInstruction := instruction;
           message := message |} ;;
      Normal response
  end.

End Chat.

(** A note request: the model and what the prompt is filled with. *)
Record NoteRequest := mkNoteRequest {
  note_model : string;
  note_client : string;
  note_trainer : string;
  note_data : option QuizData
}.

(** [response.text.trim()]; calling [trim] on [undefined] throws. *)
Definition trimmed (trim : string -> string) (response_text : option string)
  : Completion string :=
  match response_text with
  | Some s => Normal (trim s)
  | None =>
      Throw (mkJsError TypeError "Cannot read properties of undefined")
  end.

Definition newline : string := String (byte 10) EmptyString.

(** The flexed-biceps sign and the en dash of the earlier fallback note, as
    UTF-8. *)
Definition flexed_biceps : string :=
  String (byte 240) (String (byte 159) (String (byte 146)
    (String (byte 170) EmptyString))).

Definition en_dash : string :=
  String (byte 226) (String (byte 128) (String (byte 147) EmptyString)).

Module EarlierChat.

Section WithCollaborators.

Variable sendMessage : Chat.Session -> Completion (option string).

Definition getTrainerChatbotResponse (plan : Plan.PendingWorkoutPlan)
  (chatHistory : list Chat.ChatMessage) : Completion (option string) :=
  try_catch
    (Chat.converse sendMessage "gemini-2.5-flash"
       (Chat.TrainerAssistant (Plan.userName plan) (Plan.quizData plan)
          (Plan.workout_guide_draft (Plan.planData plan)))
       "I'm sorry, I didn't receive a question." chatHistory)
    (fun _ =>
       Normal (Some "I apologize, but I encountered an error and cannot respond at this moment.")).

Definition getCalorieCoachResponse (chatHistory : list Chat.ChatMessage)
  : Completion (option string) :=
  try_catch
    (Chat.converse sendMessage "gemini-2.5-flash" Chat.CalorieCoach
       "Sorry, I didn't get that. What food are you curious about?"
       chatHistory)
    (fun _ =>
       Normal (Some "I apologize, but I couldn't process that request right now. Please try again.")).

End WithCollaborators.

Section Note.

Variable generateContent : NoteRequest -> Completion (option string).
Variable trim : string -> string.

(** The generic note of the [catch] block: "Hi", the client's name, a
    fixed text and the trainer's name as signature. *)
Definition note_body : string :=
  "," ++ newline ++ newline
  ++ "I've personally reviewed your AI-based assessment and tailored plan. I recommend focusing extra on consistency this week. Let's crush it together "
  ++ flexed_biceps ++ newline ++ newline ++ en_dash ++ " ".

Definition fallback_note (userName trainerName : string) : string :=
  "Hi " ++ userName ++ note_body ++ trainerName.

Definition generateAutoTrainerNote (userName trainerName : string)
  (quizData : option QuizData) : Completion string :=
  try_catch
    (response <- generateContent
       {| note_model := "gemini-2.5-flash";
          note_client := userName;
          note_trainer := trainerName;
          note_data := quizData |} ;;
     trimmed trim response)
    (fun _ => Normal (fallback_note userName trainerName)).

End Note.

End EarlierChat.

Module CurrentChat.

Section WithCollaborators.

Variable sendMessage : Chat.Session -> Completion (option string).

(** No [try] in the current chat functions. *)
Definition getTrainerChatbotResponse (plan : Plan.PendingWorkoutPlan)
  (chatHistory : list Chat.ChatMessage) : Completion (option string) :=
  Chat.converse sendMessage "gemini-2.5-flash-lite"
    (Chat.TrainerAssistantBrief
       (Plan.workout_guide_draft (Plan.planData plan)))
    "Error: No message." chatHistory.

Definition getCalorieCoachResponse (chatHistory : list Chat.ChatMessage)
  : Completion (option string) :=
  Chat.converse sendMessage "gemini-2.5-flash-lite" Chat.CalorieCoachBrief
    "Sorry, I didn't get that." chatHistory.

End WithCollaborators.

Section Note.

Variable generateContent : NoteRequest -> Completion (option string).
Variable trim : string -> string.

Definition fallback_note (userName trainerName : string) : string :=
  "Hi " ++ userName ++ ", ready to crush it? - " ++ trainerName.

Definition generateAutoTrainerNote (userName trainerName : string)
  (quizData : option QuizData) : Completion string :=
  try_catch
    (response <- generateContent
       {| note_model := "gemini-2.5-flash-lite";
          note_client := userName;
          note_trainer := trainerName;
          note_data := quizData |} ;;
     trimmed trim response)
    (fun _ => Normal (fallback_note userName trainerName)).

End Note.

End CurrentChat.

(** Collaborators for the examples. *)
Definition chat_echo : Chat.Session -> Completion (option string) :=
  fun session => Normal (Some (Chat.message session)).

Definition chat_fails : Chat.Session -> Completion (option string) :=
  fun _ => Throw (mkJsError ApiError "503 Service Unavailable").

Definition sample_pending_plan : Plan.PendingWorkoutPlan :=
  {| Plan.id := "plan-1"; Plan.userEmail := "dana@example.com";
     Plan.userName := "Dana"; Plan.assignedTrainerName := "Athul";
     Plan.status := "pending"; Plan.generatedAt := "2025-01-01T00:00:00Z";
     Plan.approvedAt := None; Plan.planData := EarlierPlan.placeholder;
     Plan.quizData := Some worked_example; Plan.trainerNotes := None |}.

Definition note_model_answers (response_text : option string)
  : NoteRequest -> Completion (option string) :=
  fun _ => Normal response_text.

Definition note_model_fails (e : JsError)
  : NoteRequest -> Completion (option string) :=
  fun _ => Throw e.

(** ** The report page (src/components/ReportContent.tsx) *)
Module Gauge.

Open Scope Q_scope.

Definition Math_max (a b : Q) : Q := if Qle_bool a b then b else a.

Definition Math_min (a b : Q) : Q := if Qle_bool a b then a else b.

(** [Math.PI], the double nearest to pi. *)
Definition Math_PI : Q := 884279719003555 # 281474976710656.

Section Band.

Variables idealMin idealMax : Q.

Definition rangeSpan : Q := idealMax - idealMin.

Definition padding : Q := rangeSpan * 1.5.

Definition visualMin : Q := Math_max 0 (idealMin - padding).

Definition visualMax : Q := idealMax + padding.

Definition percentage (value : Q) : Q :=
  Math_max 0
    (Math_min 100 ((value - visualMin) / (visualMax - visualMin) * 100)).

Definition radius : Q := 40.

Definition circumference : Q := Math_PI * radius.

Definition dashOffset (value : Q) : Q :=
  circumference - (percentage value / 100) * circumference.

End Band.

End Gauge.

(** For the proofs: the width of the visual range of a gauge and the
    percentage before it is clamped to 0 .. 100. *)
Definition gauge_span (idealMin idealMax : Q) : Q :=
  (Gauge.visualMax idealMin idealMax - Gauge.visualMin idealMin idealMax)%Q.

Definition gauge_raw (idealMin idealMax value : Q) : Q :=
  ((value - Gauge.visualMin idealMin idealMax)
   / gauge_span idealMin idealMax * 100)%Q.

Module Roadmap.

Open Scope Q_scope.

(** [timeline.is_timeline_realistic ? timeline.weeks_to_goal :
    timeline.adjusted_timeline_weeks]; [None] is an [undefined] that
    renders as nothing. *)
Definition target_timeline (t : Timeline) : option Q :=
  if is_timeline_realistic t then Some (weeks_to_goal t)
  else adjusted_timeline_weeks t.

(** The "Timeline Adjusted" notice: absent, or shown with the number of
    weeks it quotes. *)
Definition adjusted_notice (t : Timeline) : option (option Q) :=
  if is_timeline_realistic t then None
  else Some (adjusted_timeline_weeks t).

(** [excess_fat_kg > 0 ? excess_fat_kg.toFixed(1) : "N/A"]: the number
    shown, or [None] for "N/A". *)
Definition excess_fat_shown (t : Timeline) : option Q :=
  if Arithmetic.Qlt_bool 0 (excess_fat_kg t) then Some (excess_fat_kg t)
  else None.

End Roadmap.

(** A timeline the type allows and an AI answer may hold: not realistic,
    and no adjusted value. *)
Definition unadjusted_timeline : Timeline :=
  {| excess_fat_kg := 20; weeks_to_goal := 8;
     projected_loss_per_week_kg := 5 # 2;
     is_timeline_realistic := false;
     adjusted_timeline_weeks := None |}.

(** The sample report with that timeline. *)
Definition unadjusted_report : ReportData :=
  {| numbers := numbers sample_report;
     timeline := unadjusted_timeline;
     nutrition_targets := nutrition_targets sample_report;
     body_comp := body_comp sample_report;
     flags := flags sample_report;
     methodology := methodology sample_report;
     report_markdown := report_markdown sample_report |}.

(** A report as the AI may return it, with a target intake of 900 kcal. *)
Definition low_intake_report : ReportData :=
  {| numbers :=
       {| current_maintenance_calories := 1486.8;
          daily_calorie_deficit_needed := 1375;
          target_intake_kcal := 900;
          target_burn_per_day_activity := 300 |};
     timeline := timeline sample_report;
     nutrition_targets := nutrition_targets sample_report;
     body_comp := body_comp sample_report;
     flags := flags sample_report;
     methodology := methodology sample_report;
     report_markdown := report_markdown sample_report |}.

(** The worked example with a target of 95 kg in 12 weeks. *)
Definition modest_goal_quiz : QuizData :=
  {| gender := male; age := 30; currentWeight := 100; height := 175;
     goal := "lose_weight"; targetWeight := 95; targetPeriodWeeks := 12;
     bodyImage := None; dailyActivity := moderately_active;
     gymDaysPerWeek := 3 |}.

(** [q] with another target period. *)
Definition with_period (q : QuizData) (weeks : Q) : QuizData :=
  {| gender := gender q; age := age q; currentWeight := currentWeight q;
     height := height q; goal := goal q; targetWeight := targetWeight q;
     targetPeriodWeeks := weeks; bodyImage := bodyImage q;
     dailyActivity := dailyActivity q; gymDaysPerWeek := gymDaysPerWeek q |}.

(** A sedentary woman of 45 kg, 150 cm and 60 years who wants to keep her
    weight. *)
Definition small_frame_quiz : QuizData :=
  {| gender := female; age := 60; currentWeight := 45; height := 150;
     goal := "get_shredded"; targetWeight := 45; targetPeriodWeeks := 8;
     bodyImage := None; dailyActivity := sedentary;
     gymDaysPerWeek := 2 |}.

(** ** [renderMarkdown] (src/components/ReportContent.tsx)

    Ten [String.prototype.replace] calls with global regular expressions,
    one after the other.  Each is a scan of its input from left to right:
    at a position where the expression matches, the match is replaced and
    the scan goes on after it; elsewhere the character is copied.  None of
    the ten expressions can match the empty string. *)
Module Markdown.

Definition quote : string := String (byte 34) EmptyString.

(** The bytes the character at the head of [s] takes when it is a line
    terminator, 0 otherwise. *)
Definition line_terminator_length (s : string) : nat :=
  match find (fun t => starts_with t s) line_terminators with
  | Some t => String.length t
  | None => 0%nat
  end.

(** [\s]: the white space and line terminator characters, as UTF-8. *)
Definition white_space : list string :=
  [ String (byte 9) ""; String (byte 10) ""; String (byte 11) "";
    String (byte 12) ""; String (byte 13) ""; " ";
    String (byte 194) (String (byte 160) "");
    String (byte 225) (String (byte 154) (String (byte 128) ""));
    String (byte 226) (String (byte 128) (String (byte 128) ""));
    String (byte 226) (String (byte 128) (String (byte 129) ""));
    String (byte 226) (String (byte 128) (String (byte 130) ""));
    String (byte 226) (String (byte 128) (String (byte 131) ""));
    String (byte 226) (String (byte 128) (String (byte 132) ""));
    String (byte 226) (String (byte 128) (String (byte 133) ""));
    String (byte 226) (String (byte 128) (String (byte 134) ""));
    String (byte 226) (String (byte 128) (String (byte 135) ""));
    String (byte 226) (String (byte 128) (String (byte 136) ""));
    String (byte 226) (String (byte 128) (String (byte 137) ""));
    String (byte 226) (String (byte 128) (String (byte 138) ""));
    String (byte 226) (String (byte 128) (String (byte 168) ""));
    String (byte 226) (String (byte 128) (String (byte 169) ""));
    String (byte 226) (String (byte 128) (String (byte 175) ""));
    String (byte 226) (String (byte 129) (String (byte 159) ""));
    String (byte 227) (String (byte 128) (String (byte 128) ""));
    String (byte 239) (String (byte 187) (String (byte 191) "")) ].

Definition white_space_length (s : string) : nat :=
  match find (fun t => starts_with t s) white_space with
  | Some t => String.length t
  | None => 0%nat
  end.

(** [\s*]: the number of bytes of the longest run of white space at the
    head of [s]; [inside] counts the bytes still to take of the character
    being read. *)
Fixpoint white_space_run (inside : nat) (s : string) : nat :=
  match s with
  | EmptyString => 0%nat
  | String _ rest =>
      match inside with
      | S k => S (white_space_run k rest)
      | O =>
          match white_space_length s with
          | S k => S (white_space_run k rest)
          | O => 0%nat
          end
      end
  end.

Fixpoint drop (n : nat) (s : string) : string :=
  match n, s with
  | S k, String _ rest => drop k rest
  | _, _ => s
  end.

(** [.*]: what the dot takes at the head of [s], up to the next line
    terminator or the end. *)
Fixpoint rest_of_line (s : string) : string :=
  match s with
  | EmptyString => EmptyString
  | String c rest =>
      if line_terminator_at s then EmptyString
      else String c (rest_of_line rest)
  end.

(** [.*] followed by [close], greedily: the longest stretch of the line
    that is followed by [close], if there is one. *)
Fixpoint greedy_before (close : string) (s : string) : option string :=
  match s with
  | EmptyString => if starts_with close s then Some EmptyString else None
  | String c rest =>
      let longer :=
        if line_terminator_at s then None else greedy_before close rest in
      match longer with
      | Some taken => Some (String c taken)
      | None => if starts_with close s then Some EmptyString else None
      end
  end.

(** A regular expression as the scan uses it: told whether the position
    is the start of a line and given the input from the position on, it
    answers with the length of the match and its replacement. *)
Definition Expression := bool -> string -> option (nat * string).

(** [input.replace(expression, replacement)] with the [g] flag.  [skip]
    counts the bytes of the current match still to pass, [terminator] those
    of the line terminator being read, [line_start] tells whether the
    position follows a line terminator or starts the input. *)
Fixpoint scan (e : Expression) (skip terminator : nat) (line_start : bool)
  (s : string) : string :=
  match s with
  | EmptyString => EmptyString
  | String c rest =>
      let here :=
        match terminator with
        | S k => S k
        | O => line_terminator_length s
        end in
      let next_start := Nat.eqb here 1%nat in
      match skip with
      | S k => scan e k (Nat.pred here) next_start rest
      | O =>
          match e line_start s with
          | Some (S k, replacement) =>
              replacement ++ scan e k (Nat.pred here) next_start rest
          | _ => String c (scan e 0%nat (Nat.pred here) next_start rest)
          end
      end
  end.

Definition replace_all (e : Expression) (s : string) : string :=
  scan e 0%nat 0%nat true s.

(** [/^### (.*$)/gim], [/^## (.*$)/gim] and [/^# (.*$)/gim], with the
    opening and closing tags that surround [$1]. *)
Definition heading (marker opening closing : string) : Expression :=
  fun line_start s =>
    if line_start then
      match strip_prefix marker s with
      | Some after =>
          let title := rest_of_line after in
          Some ((String.length marker + String.length title)%nat,
                opening ++ title ++ closing)
      | None => None
      end
    else None.

(** The fourth expression: two stars, a group that takes what the dot
    accepts, greedily, and two stars. *)
Definition bold : Expression :=
  fun _ s =>
    match strip_prefix "**" s with
    | Some after =>
        match greedy_before "**" after with
        | Some inner =>
            Some ((2 + String.length inner + 2)%nat,
                  "<strong class=" ++ quote ++ "font-semibold text-gray-900"
                  ++ quote ++ ">" ++ inner ++ "</strong>")
        | None => None
        end
    | None => None
    end.

Definition bullet : string :=
  String (byte 226) (String (byte 128) (String (byte 162) EmptyString)).

(** [/\n\s*-\s/g] *)
Definition list_item : Expression :=
  fun _ s =>
    match strip_prefix newline s with
    | Some after =>
        let run := white_space_run 0%nat after in
        match strip_prefix "-" (drop run after) with
        | Some after_dash =>
            match white_space_length after_dash with
            | S k =>
                Some ((1 + run + 1 + S k)%nat,
                      "<li class=" ++ quote ++ "flex items-start mb-2" ++ quote
                      ++ "><span class=" ++ quote
                      ++ "text-lime-500 font-bold mr-2 mt-1.5" ++ quote ++ ">"
                      ++ bullet ++ "</span><span>")
            | O => None
            end
        | None => None
        end
    | None => None
    end.

(** The sixth expression, one group over everything: [<li], what the dot
    accepts, [>] and what the dot accepts, all greedy; the replacement is
    the group followed by [</span></li>]. *)
Definition close_item : Expression :=
  fun _ s =>
    match strip_prefix "<li" s with
    | Some after =>
        match greedy_before ">" after with
        | Some _ =>
            let line := rest_of_line s in
            Some (String.length line, line ++ "</span></li>")
        | None => None
        end
    | None => None
    end.

(** [/<\/li\>(?!<li)/g] *)
Definition close_list : Expression :=
  fun _ s =>
    match strip_prefix "</li>" s with
    | Some after =>
        if starts_with "<li" after then None
        else Some (5%nat, "</li></ul>")
    | None => None
    end.

Definition ul_open : string :=
  "<ul class=" ++ quote ++ "my-4 pl-2" ++ quote ++ ">".

(** [/<li/g] *)
Definition open_list : Expression :=
  fun _ s =>
    if starts_with "<li" s then Some (3%nat, ul_open ++ "<li") else None.

(** [/<\/ul>\s*<ul class="my-4 pl-2">/g] *)
Definition merge_lists : Expression :=
  fun _ s =>
    match strip_prefix "</ul>" s with
    | Some after =>
        let run := white_space_run 0%nat after in
        if starts_with ul_open (drop run after)
        then Some ((5 + run + String.length ul_open)%nat, EmptyString)
        else None
    | None => None
    end.

(** [/\n/g] *)
Definition line_break : Expression :=
  fun _ s => if starts_with newline s then Some (1%nat, "<br />") else None.

Definition h3 : Expression :=
  heading "### "
    ("<h3 class=" ++ quote ++ "text-xl font-bold text-gray-700 mt-8 mb-3"
     ++ quote ++ ">")
    "</h3>".

Definition h2 : Expression :=
  heading "## "
    ("<h2 class=" ++ quote
     ++ "text-2xl font-bold text-gray-800 border-l-4 border-lime-500 pl-4 my-8"
     ++ quote ++ ">")
    "</h2>".

Definition h1 : Expression :=
  heading "# "
    ("<h1 class=" ++ quote ++ "text-3xl font-bold text-gray-900 mb-6"
     ++ quote ++ ">")
    "</h1>".

Definition steps : list Expression :=
  [ h3; h2; h1; bold; list_item; close_item; close_list; open_list;
    merge_lists; line_break ].

Definition renderMarkdown (markdown : string) : string :=
  fold_left (fun text e => replace_all e text) steps markdown.

(** [p] occurs somewhere in [s]. *)
Fixpoint occurs (p s : string) : bool :=
  starts_with p s
  || match s with
     | EmptyString => false
     | String _ rest => occurs p rest
     end.

End Markdown.

(** [e] matches at no position of [s]. *)
Fixpoint never_matches (e : Markdown.Expression) (s : string) : Prop :=
  (forall line_start, e line_start s = None) /\
  match s with
  | EmptyString => True
  | String _ rest => never_matches e rest
  end.

(** * Properties *)

(** ** The random draw *)

Section RandomElement.

Context {A : Type}.

Lemma js_index_in_range (arr : list A) (i : Z) :
  (0 <= i < Z.of_nat (List.length arr))%Z ->
  exists x, js_index arr i = Some x /\ In x arr.
Proof.
  intros [Hlo Hhi]. unfold js_index.
  destruct (Z.ltb_spec i 0) as [Hneg | _]; [lia |].
  destruct (nth_error arr (Z.to_nat i)) as [x |] eqn:Hnth.
  - exists x. split; [reflexivity | eapply nth_error_In; eassumption].
  - apply nth_error_None in Hnth. lia.
Qed.

(** The floor of [r * n] lies in [0 .. n-1] when [r] lies in [0,1). *)
Lemma scaled_floor_bounds (r : Q) (n : nat) :
  (0 < n)%nat -> 0 <= r -> r < 1 ->
  (0 <= Qfloor (r * inject_Z (Z.of_nat n)) < Z.of_nat n)%Z.
Proof.
  intros Hn Hlo Hhi.
  assert (Hpos : 0 < inject_Z (Z.of_nat n)).
  { unfold Qlt; simpl; lia. }
  split.
  - rewrite <- (Qfloor_Z 0). apply Qfloor_resp_le.
    apply Qmult_le_0_compat; [assumption | apply Qlt_le_weak; assumption].
  - rewrite Zlt_Qlt.
    apply Qle_lt_trans with (r * inject_Z (Z.of_nat n)); [apply Qfloor_le |].
    setoid_replace (inject_Z (Z.of_nat n)) with (1 * inject_Z (Z.of_nat n))
      at 2 by ring.
    apply Qmult_lt_compat_r; assumption.
Qed.

(** A draw from a non-empty array with [r] in [0,1) is never [undefined]. *)
Lemma random_element_defined (arr : list A) (r : Q) :
  arr <> [] -> 0 <= r -> r < 1 ->
  exists x, random_element arr r = Some x /\ In x arr.
Proof.
  intros Hne Hlo Hhi. unfold random_element.
  apply js_index_in_range. apply scaled_floor_bounds; try assumption.
  destruct arr; [congruence | simpl; lia].
Qed.

(** Slot [k] is drawn exactly on the interval [k/n, (k+1)/n) of the random
    source, [n] being the length of the array: every slot has the same
    share, which is what makes the draw uniform over the array. *)
Lemma random_element_slot (arr : list A) (r : Q) (k : nat) :
  inject_Z (Z.of_nat k) <= r * inject_Z (Z.of_nat (List.length arr)) ->
  r * inject_Z (Z.of_nat (List.length arr)) < inject_Z (Z.of_nat k + 1) ->
  random_element arr r = nth_error arr k.
Proof.
  intros Hlo Hhi. unfold random_element.
  set (x := r * inject_Z (Z.of_nat (List.length arr))) in *.
  assert (Hfloor : Qfloor x = Z.of_nat k).
  { apply Z.le_antisymm.
    - apply Z.lt_succ_r. rewrite Zlt_Qlt.
      apply Qle_lt_trans with x; [apply Qfloor_le |].
      replace (Z.succ (Z.of_nat k)) with (Z.of_nat k + 1)%Z by lia.
      assumption.
    - rewrite <- (Qfloor_Z (Z.of_nat k)). apply Qfloor_resp_le. assumption. }
  rewrite Hfloor. unfold js_index.
  destruct (Z.ltb_spec (Z.of_nat k) 0) as [Hneg | _]; [lia |].
  rewrite Nat2Z.id. reflexivity.
Qed.

End RandomElement.

(** ** The weighted pool *)

(** Whatever the target specialty, the pool holds trainer names only and
    is not empty. *)
Lemma weightedPool_sound (t : EarlierService.Specialty) :
  EarlierService.weightedPool t <> [] /\
  incl (EarlierService.weightedPool t) trainerNames.
Proof.
  unfold EarlierService.weightedPool, allTrainers, trainerNames. simpl.
  destruct (EarlierService.includes ["Weight Loss"; "Lean Body"] t),
           (EarlierService.includes ["Lean Body"; "Bodybuilding"] t),
           (EarlierService.includes ["Weight Loss"; "Bodybuilding"] t);
    simpl; (split; [discriminate |]);
    intros x Hx; simpl in *; intuition.
Qed.

Lemma pool_for_sound (userGoal : option string) :
  EarlierService.pool_for userGoal <> [] /\
  incl (EarlierService.pool_for userGoal) trainerNames.
Proof.
  unfold EarlierService.pool_for.
  destruct (EarlierService.truthy (EarlierService.targetSpecialty userGoal)).
  - apply weightedPool_sound.
  - split; [discriminate | apply incl_refl].
Qed.

Lemma assignedTrainerName_pool (userGoal : option string) (r : Q) :
  EarlierService.assignedTrainerName userGoal r =
  random_element (EarlierService.pool_for userGoal) r.
Proof.
  unfold EarlierService.assignedTrainerName, EarlierService.pool_for.
  destruct (EarlierService.truthy (EarlierService.targetSpecialty userGoal));
    reflexivity.
Qed.

(** The three goals of the quiz select their specialty; an inherited
    property name is truthy without being a specialty; anything else, the
    empty string and an absent goal give no target. *)
Example targetSpecialty_examples :
  EarlierService.targetSpecialty (Some "lose_weight")
    = EarlierService.OwnValue "Weight Loss" /\
  EarlierService.targetSpecialty (Some "gain_muscle")
    = EarlierService.OwnValue "Bodybuilding" /\
  EarlierService.targetSpecialty (Some "get_shredded")
    = EarlierService.OwnValue "Lean Body" /\
  EarlierService.targetSpecialty (Some "constructor")
    = EarlierService.InheritedValue /\
  EarlierService.targetSpecialty (Some "maintain") = EarlierService.Nullish /\
  EarlierService.targetSpecialty (Some "") = EarlierService.Nullish /\
  EarlierService.targetSpecialty None = EarlierService.Nullish.
Proof. repeat split. Qed.

(** A goal that names a member of [Object.prototype] takes the weighted
    branch with no specialist: one slot per trainer. *)
Example inherited_key_pool :
  EarlierService.pool_for (Some "constructor")
  = ["Athul"; "Athithiya"; "Saieel"].
Proof. reflexivity. Qed.

(** Draws for the goal "lose_weight" at a few values of the random source:
    slots 0 to 4 are Athul's, slot 5 Athithiya's, slots 6 to 10 Saieel's. *)
Example lose_weight_draws :
  EarlierService.assignedTrainerName (Some "lose_weight") 0 = Some "Athul" /\
  EarlierService.assignedTrainerName (Some "lose_weight") (4 # 10)
    = Some "Athul" /\
  EarlierService.assignedTrainerName (Some "lose_weight") (1 # 2)
    = Some "Athithiya" /\
  EarlierService.assignedTrainerName (Some "lose_weight") (6 # 10)
    = Some "Saieel" /\
  EarlierService.assignedTrainerName (Some "lose_weight") (99 # 100)
    = Some "Saieel".
Proof. repeat split. Qed.

(** Outside [0,1) the index leaves the array: the bound on the random
    source is what keeps the draw defined. *)
Example draw_outside_unit_interval :
  random_element trainerNames 1 = None /\
  random_element trainerNames (-1 # 10) = None.
Proof. split; reflexivity. Qed.

(** C1, as the code has it.  For the goal "lose_weight" the expanded pool
    holds Athul five times, Athithiya once and Saieel five times, eleven
    slots in all: with a uniform draw over the pool the two "Weight Loss"
    trainers are selected with combined probability 10/11 (5/11 each) and
    Athithiya with probability 1/11. *)
Theorem lose_weight_pool_distribution :
  let pool := EarlierService.pool_for (Some "lose_weight") in
  pool = (repeat "Athul" 5 ++ repeat "Athithiya" 1 ++ repeat "Saieel" 5)%list /\
  (forall r, EarlierService.assignedTrainerName (Some "lose_weight") r
             = random_element pool r) /\
  pool_probability pool "Athul" == 5 # 11 /\
  pool_probability pool "Saieel" == 5 # 11 /\
  pool_probability pool "Athul" + pool_probability pool "Saieel" == 10 # 11 /\
  pool_probability pool "Athithiya" == 1 # 11.
Proof.
  cbv zeta. split; [reflexivity |].
  split; [intro r; apply assignedTrainerName_pool |].
  repeat split; vm_compute; reflexivity.
Qed.

(** C1, as the specification words it, fails: the combined probability of
    Athul and Saieel is not 5/7 and that of Athithiya is not 1/7. *)
Lemma lose_weight_not_five_sevenths :
  let pool := EarlierService.pool_for (Some "lose_weight") in
  ~ (pool_probability pool "Athul" + pool_probability pool "Saieel" == 5 # 7)
  /\ ~ (pool_probability pool "Athithiya" == 1 # 7).
Proof.
  cbv zeta. split; intro H; vm_compute in H; discriminate.
Qed.

(** C9.  Whatever the goal (one of the three, unknown, empty or absent) and
    whatever value in [0,1) the random source gives, both versions of the
    assignment yield a name, never [undefined], and the name is one of
    Athul, Athithiya and Saieel. *)
Theorem assignment_returns_trainer
  (userGoal : option string) (quizData : option QuizData) (r : Q)
  (Hlo : 0 <= r) (Hhi : r < 1) :
  (exists n, EarlierService.assignedTrainerName userGoal r = Some n
             /\ In n ["Athul"; "Athithiya"; "Saieel"]) /\
  (exists n, CurrentService.assignedTrainerName quizData r = Some n
             /\ In n ["Athul"; "Athithiya"; "Saieel"]).
Proof.
  split.
  - rewrite assignedTrainerName_pool.
    destruct (pool_for_sound userGoal) as [Hne Hincl].
    destruct (random_element_defined _ r Hne Hlo Hhi) as [n [Hn Hin]].
    exists n. split; [assumption | apply Hincl; assumption].
  - unfold CurrentService.assignedTrainerName.
    apply random_element_defined; [discriminate | assumption | assumption].
Qed.

Lemma assignment_returns_trainer_witness :
  (exists n, EarlierService.assignedTrainerName (Some "lose_weight") (1 # 2)
             = Some n /\ In n ["Athul"; "Athithiya"; "Saieel"]) /\
  (exists n, CurrentService.assignedTrainerName None (1 # 2) = Some n
             /\ In n ["Athul"; "Athithiya"; "Saieel"]).
Proof.
  apply (assignment_returns_trainer (Some "lose_weight") None (1 # 2)).
  - unfold Qle; simpl; lia.
  - unfold Qlt; simpl; lia.
Defined.

(** C10.  In the current service the draw ignores its input and splits the
    range of the random source into three equal parts.  The quiz data (and
    so the goal) never changes the outcome for a given value r of the random
    source; the draw is made over the three names, one slot each; Athul is
    assigned when 0 <= 3r <= 1 - e, Athithiya when 1 <= 3r <= 2 - e and
    Saieel when 2 <= 3r <= 3 - e, where e = 2^-40 leaves out, below each
    boundary, the sliver in which the rounding of the product 3r decides.
    Each trainer thus answers for an interval of r of length (1 - e)/3: with
    r uniform on [0,1) each is drawn with probability 1/3 (to within e),
    whatever the input. *)
Theorem current_assignment_uniform :
  (forall (q1 q2 : option QuizData) (r : Q),
     CurrentService.assignedTrainerName q1 r
     = CurrentService.assignedTrainerName q2 r) /\
  (forall (q : option QuizData) (r : Q),
     CurrentService.assignedTrainerName q r
     = random_element ["Athul"; "Athithiya"; "Saieel"] r) /\
  (forall (q : option QuizData) (r : Q),
     0 <= r * 3 -> r * 3 <= 1 - (1 # 1099511627776) ->
     CurrentService.assignedTrainerName q r = Some "Athul") /\
  (forall (q : option QuizData) (r : Q),
     1 <= r * 3 -> r * 3 <= 2 - (1 # 1099511627776) ->
     CurrentService.assignedTrainerName q r = Some "Athithiya") /\
  (forall (q : option QuizData) (r : Q),
     2 <= r * 3 -> r * 3 <= 3 - (1 # 1099511627776) ->
     CurrentService.assignedTrainerName q r = Some "Saieel") /\
  pool_probability trainerNames "Athul" == 1 # 3 /\
  pool_probability trainerNames "Athithiya" == 1 # 3 /\
  pool_probability trainerNames "Saieel" == 1 # 3.
Proof.
  assert (Hslot : forall (q : option QuizData) (r : Q) (k : nat),
    inject_Z (Z.of_nat k) <= r * 3 ->
    r * 3 <= inject_Z (Z.of_nat k + 1) - (1 # 1099511627776) ->
    CurrentService.assignedTrainerName q r
    = nth_error ["Athul"; "Athithiya"; "Saieel"] k).
  { intros q r k Hlo Hhi.
    unfold CurrentService.assignedTrainerName.
    apply random_element_slot.
    - exact Hlo.
    - change (r * 3 < inject_Z (Z.of_nat k + 1)).
      assert (He : 0 < (1 # 1099511627776)) by reflexivity.
      remember (inject_Z (Z.of_nat k + 1)) as next.
      lra. }
  split; [reflexivity |].
  split; [reflexivity |].
  split; [intros q r Hlo Hhi; apply (Hslot q r 0%nat); assumption |].
  split; [intros q r Hlo Hhi; apply (Hslot q r 1%nat); assumption |].
  split; [intros q r Hlo Hhi; apply (Hslot q r 2%nat); assumption |].
  repeat split; vm_compute; reflexivity.
Qed.

(** The three parts at work: a value in the first third, one in the second
    and one in the last. *)
Example current_assignment_thirds :
  CurrentService.assignedTrainerName (Some worked_example) (1 # 10)
  = Some "Athul" /\
  CurrentService.assignedTrainerName (Some worked_example) (1 # 2)
  = Some "Athithiya" /\
  CurrentService.assignedTrainerName None (9 # 10) = Some "Saieel".
Proof. repeat split. Qed.

(** ** The arithmetic of the prompt *)

Module ArithmeticFacts.

Import Arithmetic.
Open Scope Q_scope.

Lemma Qlt_bool_iff (x y : Q) : Qlt_bool x y = true <-> x < y.
Proof.
  unfold Qlt_bool. rewrite negb_true_iff. split.
  - intro H. apply Qnot_le_lt. intro Hle.
    apply Qle_bool_iff in Hle. congruence.
  - intro H. destruct (Qle_bool y x) eqn:E; [| reflexivity].
    apply Qle_bool_iff in E. exfalso. apply (Qlt_not_le _ _ H E).
Qed.

Lemma Qlt_bool_false_iff (x y : Q) : Qlt_bool x y = false <-> y <= x.
Proof.
  unfold Qlt_bool. rewrite negb_false_iff. apply Qle_bool_iff.
Qed.

Lemma excess_fat_nonneg (q : QuizData) : 0 <= excess_fat q.
Proof.
  unfold excess_fat. cbv zeta.
  destruct (Qlt_bool (currentWeight q - targetWeight q) 0) eqn:E.
  - apply Qle_refl.
  - apply Qlt_bool_false_iff in E. assumption.
Qed.

Lemma total_calorie_gap_nonneg (q : QuizData) : 0 <= total_calorie_gap q.
Proof.
  unfold total_calorie_gap.
  apply Qmult_le_0_compat; [apply excess_fat_nonneg | unfold Qle; simpl; lia].
Qed.

(** A positive deficit can only come from a positive energy gap. *)
Lemma positive_deficit_gap (q : QuizData) :
  0 < deficit_needed q -> 0 < total_calorie_gap q.
Proof.
  intro Hpos. unfold deficit_needed in Hpos.
  destruct (Qlt_le_dec 0 (total_calorie_gap q)) as [Hgap | Hgap];
    [assumption |].
  assert (Hzero : total_calorie_gap q == 0).
  { apply Qle_antisym; [assumption | apply total_calorie_gap_nonneg]. }
  rewrite Hzero in Hpos. unfold Qdiv in Hpos. rewrite Qmult_0_l in Hpos.
  exfalso. apply (Qlt_irrefl 0). assumption.
Qed.

Lemma unrealistic_of_large_deficit (q : QuizData) :
  1000 < deficit_needed q -> unrealistic q = true.
Proof.
  intro H. unfold unrealistic, max_safe_deficit.
  apply orb_true_iff. left. apply Qlt_bool_iff. assumption.
Qed.

End ArithmeticFacts.

(** C2, as the prompt's formulas give it.  For 100 kg, 175 cm, 30 years,
    male, moderately active (1.55) and a target of 80 kg in 8 weeks:
    BMR = 1948.75 kcal, TDEE = 3020.5625 kcal, excess fat = 20 kg, total
    energy gap = 154000 kcal, daily deficit needed = 154000/56 = 2750 kcal,
    which exceeds 1000, so the plan fails the realism check. *)
Theorem worked_example_values :
  Arithmetic.bmr_of worked_example == 1948.75 /\
  Arithmetic.activity_multiplier (dailyActivity worked_example) == 1.55 /\
  Arithmetic.TDEE worked_example == 3020.5625 /\
  Arithmetic.excess_fat worked_example == 20 /\
  Arithmetic.total_calorie_gap worked_example == 154000 /\
  Arithmetic.deficit_needed worked_example == 154000 / 56 /\
  Arithmetic.deficit_needed worked_example == 2750 /\
  1000 < Arithmetic.deficit_needed worked_example /\
  Arithmetic.unrealistic worked_example = true.
Proof.
  repeat split; vm_compute; reflexivity.
Qed.

(** C2, as the specification words it, fails on its first two figures: the
    BMR of the example is not 1748.75 and the TDEE is more than 300 kcal
    away from 2710.6. *)
Lemma worked_example_bmr_not_1748 :
  ~ Arithmetic.bmr_of worked_example == 1748.75 /\
  2710.6 + 300 < Arithmetic.TDEE worked_example.
Proof.
  split.
  - intro H. vm_compute in H. discriminate.
  - vm_compute. reflexivity.
Qed.

(** C4.  Whenever the daily deficit needed exceeds 1000 kcal, the realism
    check sets [is_timeline_realistic] to false and gives an adjusted
    timeline, which is strictly positive for every safe deficit between 500
    and 750 kcal. *)
Theorem large_deficit_adjusted
  (safe_deficit : Q) (q : QuizData) (weeks loss : Q)
  (Hsafe : 500 <= safe_deficit <= 750)
  (Hdeficit : 1000 < Arithmetic.deficit_needed q) :
  let t := Arithmetic.timeline_of safe_deficit q weeks loss in
  is_timeline_realistic t = false /\
  exists w, adjusted_timeline_weeks t = Some w /\ 0 < w.
Proof.
  cbv zeta. unfold Arithmetic.timeline_of. simpl.
  unfold Arithmetic.realism_flag, Arithmetic.adjusted_timeline.
  rewrite (ArithmeticFacts.unrealistic_of_large_deficit q Hdeficit).
  split; [reflexivity |].
  exists (Arithmetic.adjusted_weeks safe_deficit q).
  split; [reflexivity |].
  unfold Arithmetic.adjusted_weeks.
  assert (Hgap : 0 < Arithmetic.total_calorie_gap q).
  { apply ArithmeticFacts.positive_deficit_gap.
    apply Qlt_trans with 1000; [reflexivity | assumption]. }
  assert (Hdiv : 0 < safe_deficit * 7).
  { destruct Hsafe as [Hlo _].
    apply Qlt_le_trans with (500 * 7); [reflexivity |].
    apply Qmult_le_compat_r; [assumption | unfold Qle; simpl; lia]. }
  apply Qlt_shift_div_l; [assumption |].
  rewrite Qmult_0_l. assumption.
Qed.

Lemma large_deficit_adjusted_witness :
  let t := Arithmetic.timeline_of 500 worked_example 8 (5 # 2) in
  is_timeline_realistic t = false /\
  exists w, adjusted_timeline_weeks t = Some w /\ 0 < w.
Proof.
  apply (large_deficit_adjusted 500 worked_example 8 (5 # 2)).
  - split; unfold Qle; simpl; lia.
  - vm_compute. reflexivity.
Defined.

(** C6, amended.  Whenever the BMR is positive the TDEE is strictly
    positive for every activity level, and for that BMR a larger activity
    multiplier gives a strictly larger TDEE; the four multipliers increase
    from sedentary to very active. *)
Theorem tdee_positive_monotone (q : QuizData)
  (Hbmr : 0 < Arithmetic.bmr_of q) :
  0 < Arithmetic.TDEE q /\
  (forall a1 a2 : DailyActivity,
     Arithmetic.activity_multiplier a1 < Arithmetic.activity_multiplier a2 ->
     Arithmetic.TDEE_of (Arithmetic.bmr_of q) a1
     < Arithmetic.TDEE_of (Arithmetic.bmr_of q) a2) /\
  Arithmetic.TDEE_of (Arithmetic.bmr_of q) sedentary
  < Arithmetic.TDEE_of (Arithmetic.bmr_of q) lightly_active /\
  Arithmetic.TDEE_of (Arithmetic.bmr_of q) lightly_active
  < Arithmetic.TDEE_of (Arithmetic.bmr_of q) moderately_active /\
  Arithmetic.TDEE_of (Arithmetic.bmr_of q) moderately_active
  < Arithmetic.TDEE_of (Arithmetic.bmr_of q) very_active.
Proof.
  assert (Hmono : forall a1 a2 : DailyActivity,
    Arithmetic.activity_multiplier a1 < Arithmetic.activity_multiplier a2 ->
    Arithmetic.TDEE_of (Arithmetic.bmr_of q) a1
    < Arithmetic.TDEE_of (Arithmetic.bmr_of q) a2).
  { intros a1 a2 Hlt. unfold Arithmetic.TDEE_of.
    rewrite (Qmult_comm _ (Arithmetic.activity_multiplier a1)).
    rewrite (Qmult_comm _ (Arithmetic.activity_multiplier a2)).
    apply Qmult_lt_compat_r; assumption. }
  split.
  - unfold Arithmetic.TDEE, Arithmetic.TDEE_of.
    apply Qmult_lt_0_compat; [assumption |].
    destruct (dailyActivity q); reflexivity.
  - split; [exact Hmono |].
    repeat split; apply Hmono; reflexivity.
Qed.

Lemma tdee_positive_monotone_witness :
  0 < Arithmetic.TDEE worked_example /\
  (forall a1 a2 : DailyActivity,
     Arithmetic.activity_multiplier a1 < Arithmetic.activity_multiplier a2 ->
     Arithmetic.TDEE_of (Arithmetic.bmr_of worked_example) a1
     < Arithmetic.TDEE_of (Arithmetic.bmr_of worked_example) a2) /\
  Arithmetic.TDEE_of (Arithmetic.bmr_of worked_example) sedentary
  < Arithmetic.TDEE_of (Arithmetic.bmr_of worked_example) lightly_active /\
  Arithmetic.TDEE_of (Arithmetic.bmr_of worked_example) lightly_active
  < Arithmetic.TDEE_of (Arithmetic.bmr_of worked_example) moderately_active /\
  Arithmetic.TDEE_of (Arithmetic.bmr_of worked_example) moderately_active
  < Arithmetic.TDEE_of (Arithmetic.bmr_of worked_example) very_active.
Proof.
  apply (tdee_positive_monotone worked_example).
  vm_compute. reflexivity.
Defined.

(** C6, as the specification words it, fails: weight 10 kg, height 50 cm
    and age 90 are all positive, yet the BMR is -32.5 kcal, the TDEE is
    negative, and a larger multiplier makes it smaller. *)
Lemma positive_inputs_negative_tdee :
  0 < currentWeight negative_bmr_quiz /\
  0 < height negative_bmr_quiz /\
  0 < age negative_bmr_quiz /\
  Arithmetic.bmr_of negative_bmr_quiz == -32.5 /\
  ~ 0 < Arithmetic.TDEE negative_bmr_quiz /\
  Arithmetic.TDEE_of (Arithmetic.bmr_of negative_bmr_quiz) very_active
  < Arithmetic.TDEE_of (Arithmetic.bmr_of negative_bmr_quiz) sedentary.
Proof.
  repeat split; try (vm_compute; reflexivity).
  intro H. vm_compute in H. discriminate.
Qed.

(** ** Report generation *)

Section ReportOutcomes.

Variable generateContent :
  GenerateContentParameters -> Completion (option string).
Variable JSON_parse : string -> option ReportData.
Variable match_data_url : string -> option (string * string).

(** The parser only ever throws a [SyntaxError]. *)
Lemma parse_report_throws (text : option string) (err : JsError) :
  parse_report JSON_parse text = Throw err -> error_class err = SyntaxError.
Proof.
  unfold parse_report. destruct text as [s |].
  - destruct (JSON_parse s); intro H; inversion H; reflexivity.
  - intro H; inversion H; reflexivity.
Qed.

(** In the earlier service a rejected text always ends in the
    AI_JSON_PARSE_ERROR. *)
Lemma earlier_handler_on_parse (text : option string) :
  try_catch (reportData <- parse_report JSON_parse text ;; Normal reportData)
    (fun err =>
       if instanceof_SyntaxError err
       then Throw EarlierService.parse_error
       else Normal EarlierService.fallbackReport)
  = match parse_report JSON_parse text with
    | Normal report => Normal report
    | Throw _ => Throw EarlierService.parse_error
    end.
Proof.
  destruct (parse_report JSON_parse text) as [report | err] eqn:E.
  - reflexivity.
  - simpl. apply parse_report_throws in E.
    unfold instanceof_SyntaxError. rewrite E. reflexivity.
Qed.

(** The earlier service, outcome by outcome of its collaborators. *)
Lemma earlier_report_outcome (q : QuizData) :
  EarlierService.generateAssessmentReport
    generateContent JSON_parse match_data_url q
  = match generateContent
            (EarlierService.request_parameters match_data_url q) with
    | Throw err =>
        if instanceof_SyntaxError err
        then Throw EarlierService.parse_error
        else Normal EarlierService.fallbackReport
    | Normal None => Throw EarlierService.parse_error
    | Normal (Some s) =>
        match JSON_parse s with
        | Some report => Normal report
        | None => Throw EarlierService.parse_error
        end
    end.
Proof.
  unfold EarlierService.generateAssessmentReport, EarlierService.report_body.
  destruct (generateContent
              (EarlierService.request_parameters match_data_url q))
    as [text | err].
  - cbn [bind]. rewrite earlier_handler_on_parse.
    destruct text as [s |]; simpl; [destruct (JSON_parse s) |]; reflexivity.
  - reflexivity.
Qed.

(** The current service hands every failure on. *)
Lemma current_report_outcome (q : QuizData) :
  CurrentService.generateAssessmentReport
    generateContent JSON_parse match_data_url q
  = match generateContent
            (CurrentService.request_parameters match_data_url q) with
    | Throw err => Throw err
    | Normal text => parse_report JSON_parse text
    end.
Proof.
  unfold CurrentService.generateAssessmentReport, CurrentService.report_body.
  destruct (generateContent
              (CurrentService.request_parameters match_data_url q))
    as [text | err]; [| reflexivity].
  cbn [bind]. destruct (parse_report JSON_parse text); reflexivity.
Qed.

End ReportOutcomes.

(** C3, amended.  The earlier service returns the zeroed fallback report
    exactly when the AI call fails with something other than a
    [SyntaxError]; a response whose text is missing or is not valid JSON
    (and an AI failure that is a [SyntaxError]) raises AI_JSON_PARSE_ERROR;
    a text that parses is returned as the report.  The current service has
    no fallback: a failure of the AI call or of the parser is raised to the
    caller unchanged. *)
Theorem report_failure_paths
  (generateContent : GenerateContentParameters -> Completion (option string))
  (JSON_parse : string -> option ReportData)
  (match_data_url : string -> option (string * string))
  (q : QuizData) :
  EarlierService.generateAssessmentReport
    generateContent JSON_parse match_data_url q
  = match generateContent
            (EarlierService.request_parameters match_data_url q) with
    | Throw err =>
        if instanceof_SyntaxError err
        then Throw EarlierService.parse_error
        else Normal EarlierService.fallbackReport
    | Normal None => Throw EarlierService.parse_error
    | Normal (Some s) =>
        match JSON_parse s with
        | Some report => Normal report
        | None => Throw EarlierService.parse_error
        end
    end
  /\
  CurrentService.generateAssessmentReport
    generateContent JSON_parse match_data_url q
  = match generateContent
            (CurrentService.request_parameters match_data_url q) with
    | Throw err => Throw err
    | Normal None =>
        Throw (mkJsError SyntaxError "undefined is not valid JSON")
    | Normal (Some s) =>
        match JSON_parse s with
        | Some report => Normal report
        | None => Throw (mkJsError SyntaxError "Unexpected token in JSON")
        end
    end.
Proof.
  split.
  - apply earlier_report_outcome.
  - rewrite current_report_outcome.
    destruct (generateContent
                (CurrentService.request_parameters match_data_url q))
      as [[s |] | err]; reflexivity.
Qed.

(** C3, as the specification words it, fails: when the AI answers with a
    text that is not JSON the earlier service raises AI_JSON_PARSE_ERROR,
    and when the AI call fails the current service raises that failure;
    neither returns a report. *)
Lemma report_generation_can_raise :
  EarlierService.generateAssessmentReport
    (ai_answers "<html>Bad Gateway</html>") parse_rejects no_data_url
    worked_example
  = Throw EarlierService.parse_error
  /\
  CurrentService.generateAssessmentReport
    ai_unavailable parse_accepts no_data_url worked_example
  = Throw (mkJsError ApiError "503 Service Unavailable").
Proof. split; reflexivity. Qed.

(** The fallback of the earlier service, on a failed AI call. *)
Example earlier_fallback_on_unavailable :
  EarlierService.generateAssessmentReport
    ai_unavailable parse_accepts no_data_url worked_example
  = Normal EarlierService.fallbackReport.
Proof. reflexivity. Qed.

(** C8, amended.  Nothing checks the target period.  Whatever its value,
    positive or not, both services return the report the AI answered with
    as soon as the call succeeds and the text parses; and the quotient
    total gap / (weeks x 7) is well defined, with deficit x weeks x 7 =
    total gap and a deficit that is not negative, whenever the target
    period is positive. *)
Theorem period_is_not_checked
  (generateContent : GenerateContentParameters -> Completion (option string))
  (JSON_parse : string -> option ReportData)
  (match_data_url : string -> option (string * string))
  (q : QuizData) :
  (forall s report,
     generateContent (EarlierService.request_parameters match_data_url q)
     = Normal (Some s) ->
     JSON_parse s = Some report ->
     EarlierService.generateAssessmentReport
       generateContent JSON_parse match_data_url q = Normal report) /\
  (forall s report,
     generateContent (CurrentService.request_parameters match_data_url q)
     = Normal (Some s) ->
     JSON_parse s = Some report ->
     CurrentService.generateAssessmentReport
       generateContent JSON_parse match_data_url q = Normal report) /\
  (0 < targetPeriodWeeks q ->
   ~ targetPeriodWeeks q * 7 == 0 /\
   Arithmetic.deficit_needed q * (targetPeriodWeeks q * 7)
   == Arithmetic.total_calorie_gap q /\
   0 <= Arithmetic.deficit_needed q).
Proof.
  split; [| split].
  - intros s report Hai Hparse.
    rewrite earlier_report_outcome, Hai, Hparse. reflexivity.
  - intros s report Hai Hparse.
    rewrite current_report_outcome, Hai. simpl. rewrite Hparse. reflexivity.
  - intro Hweeks.
    assert (Hpos : 0 < targetPeriodWeeks q * 7).
    { apply Qmult_lt_0_compat; [assumption | reflexivity]. }
    assert (Hnz : ~ targetPeriodWeeks q * 7 == 0).
    { intro Hz. rewrite Hz in Hpos. apply (Qlt_irrefl 0). assumption. }
    split; [assumption |]. split.
    + unfold Arithmetic.deficit_needed.
      rewrite Qmult_comm. apply Qmult_div_r. assumption.
    + unfold Arithmetic.deficit_needed.
      apply Qle_shift_div_l; [assumption |].
      rewrite Qmult_0_l. apply ArithmeticFacts.total_calorie_gap_nonneg.
Qed.

(** C8, as the specification words it, fails: with a target period of zero
    weeks and an AI that answers, both services return the report; no
    error is raised. *)
Lemma zero_weeks_report_returned :
  targetPeriodWeeks zero_weeks_quiz <= 0 /\
  EarlierService.generateAssessmentReport
    (ai_answers "{...}") parse_accepts no_data_url zero_weeks_quiz
  = Normal sample_report /\
  CurrentService.generateAssessmentReport
    (ai_answers "{...}") parse_accepts no_data_url zero_weeks_quiz
  = Normal sample_report.
Proof.
  split; [unfold Qle; simpl; lia | split; reflexivity].
Qed.


(** A report either service returns is the fallback report or the parsed
    answer of the AI, as it is. *)
Lemma returned_report_origin
  (generateContent : GenerateContentParameters -> Completion (option string))
  (JSON_parse : string -> option ReportData)
  (match_data_url : string -> option (string * string))
  (q : QuizData) (report : ReportData) :
  (EarlierService.generateAssessmentReport
     generateContent JSON_parse match_data_url q = Normal report ->
   report = EarlierService.fallbackReport \/
   exists s,
     generateContent (EarlierService.request_parameters match_data_url q)
     = Normal (Some s) /\ JSON_parse s = Some report) /\
  (CurrentService.generateAssessmentReport
     generateContent JSON_parse match_data_url q = Normal report ->
   exists s,
     generateContent (CurrentService.request_parameters match_data_url q)
     = Normal (Some s) /\ JSON_parse s = Some report).
Proof.
  split; intro H.
  - rewrite earlier_report_outcome in H.
    destruct (generateContent
                (EarlierService.request_parameters match_data_url q))
      as [[s |] | err].
    + destruct (JSON_parse s) as [parsed |] eqn:Hparse; [| discriminate].
      inversion H; subst. right. exists s. split; [reflexivity | assumption].
    + discriminate.
    + destruct (instanceof_SyntaxError err); [discriminate |].
      inversion H; subst. left. reflexivity.
  - rewrite current_report_outcome in H.
    destruct (generateContent
                (CurrentService.request_parameters match_data_url q))
      as [[s |] | err]; simpl in H.
    + destruct (JSON_parse s) as [parsed |] eqn:Hparse; [| discriminate].
      inversion H; subst. exists s. split; [reflexivity | assumption].
    + discriminate.
    + discriminate.
Qed.

(** C5, amended.  Neither service enforces a minimum intake.  The
    [target_intake_kcal] of a report the earlier service returns is the
    value the AI's JSON holds, unchanged, or the 0 of the fallback report,
    which is below both minima; the current service only ever returns the
    AI's value.  The bound of 1200 or 1500 kcal is an instruction of the
    request: a returned report respects it exactly when the answer of the
    AI does. *)
Theorem intake_is_passed_through
  (generateContent : GenerateContentParameters -> Completion (option string))
  (JSON_parse : string -> option ReportData)
  (match_data_url : string -> option (string * string))
  (q : QuizData) (report : ReportData) :
  (EarlierService.generateAssessmentReport
     generateContent JSON_parse match_data_url q = Normal report ->
   (report = EarlierService.fallbackReport /\
    target_intake_kcal (numbers report) == 0) \/
   exists s parsed,
     generateContent (EarlierService.request_parameters match_data_url q)
     = Normal (Some s) /\ JSON_parse s = Some parsed /\
     target_intake_kcal (numbers report)
     = target_intake_kcal (numbers parsed)) /\
  (CurrentService.generateAssessmentReport
     generateContent JSON_parse match_data_url q = Normal report ->
   exists s parsed,
     generateContent (CurrentService.request_parameters match_data_url q)
     = Normal (Some s) /\ JSON_parse s = Some parsed /\
     target_intake_kcal (numbers report)
     = target_intake_kcal (numbers parsed)) /\
  (forall g : Gender,
     target_intake_kcal (numbers EarlierService.fallbackReport)
     < Arithmetic.min_safe_intake g).
Proof.
  destruct (returned_report_origin generateContent JSON_parse match_data_url
              q report) as [Hearlier Hcurrent].
  split; [| split].
  - intro H. destruct (Hearlier H) as [-> | [s [Hai Hparse]]].
    + left. split; reflexivity.
    + right. exists s, report. repeat split; assumption.
  - intro H. destruct (Hcurrent H) as [s [Hai Hparse]].
    exists s, report. repeat split; assumption.
  - intros [|]; reflexivity.
Qed.

(** C5, as the specification words it, fails: for a sedentary woman of
    60 kg, 160 cm and 40 years who asks for 50 kg in 8 weeks, the earlier
    service answers a failed AI call with a report whose intake is 0 kcal,
    and both services hand on an AI answer of 900 kcal as it is; the
    minimum for a woman is 1200 kcal. *)
Lemma returned_intake_below_minimum :
  Arithmetic.min_safe_intake (gender low_tdee_quiz) == 1200 /\
  EarlierService.generateAssessmentReport
    ai_unavailable parse_accepts no_data_url low_tdee_quiz
  = Normal EarlierService.fallbackReport /\
  target_intake_kcal (numbers EarlierService.fallbackReport) < 1200 /\
  EarlierService.generateAssessmentReport
    (ai_answers "{...}") (fun _ => Some low_intake_report) no_data_url
    low_tdee_quiz
  = Normal low_intake_report /\
  CurrentService.generateAssessmentReport
    (ai_answers "{...}") (fun _ => Some low_intake_report) no_data_url
    low_tdee_quiz
  = Normal low_intake_report /\
  target_intake_kcal (numbers low_intake_report) < 1200.
Proof. repeat split. Qed.




(** * Properties of the remaining functions *)

(** ** Data URLs *)

Lemma strip_prefix_spec (p s rest : string) :
  strip_prefix p s = Some rest <-> s = p ++ rest.
Proof.
  revert s. induction p as [| a p IH]; intro s; simpl.
  - split; intro H; [inversion H; reflexivity | subst; reflexivity].
  - destruct s as [| b s]; [split; discriminate |].
    destruct (Ascii.eqb_spec a b) as [-> | Hne].
    + rewrite IH. split; intro H; [subst; reflexivity | inversion H; reflexivity].
    + split; [discriminate | intro H; inversion H; congruence].
Qed.

Lemma strip_prefix_app (p rest : string) :
  strip_prefix p (p ++ rest) = Some rest.
Proof. apply strip_prefix_spec. reflexivity. Qed.

Lemma string_app_assoc (a b c : string) : (a ++ b) ++ c = a ++ (b ++ c).
Proof. induction a as [| x a IH]; simpl; [reflexivity | rewrite IH; reflexivity]. Qed.

Lemma string_app_empty_r (a : string) : a ++ "" = a.
Proof. induction a as [| x a IH]; simpl; [reflexivity | rewrite IH; reflexivity]. Qed.

Lemma starts_with_app (t a b : string) :
  starts_with t a = true -> starts_with t (a ++ b) = true.
Proof.
  unfold starts_with.
  destruct (strip_prefix t a) as [r |] eqn:E; [intros _ | discriminate].
  apply strip_prefix_spec in E. subst a.
  rewrite string_app_assoc, strip_prefix_app. reflexivity.
Qed.

(** A terminator that starts [a] also starts [a ++ b]. *)
Lemma line_terminator_at_app (a b : string) :
  line_terminator_at a = true -> line_terminator_at (a ++ b) = true.
Proof.
  unfold line_terminator_at. rewrite !existsb_exists.
  intros [t [Hin Ht]]. exists t. split; [assumption |].
  apply starts_with_app. assumption.
Qed.

(** A string the dot accepts throughout keeps that property on every
    prefix. *)
Lemma dot_star_app_l (a b : string) :
  dot_star (a ++ b) = true -> dot_star a = true.
Proof.
  induction a as [| c a IH]; simpl; [reflexivity |].
  intro H. apply andb_true_iff in H. destruct H as [Hlt Hrest].
  apply andb_true_iff. split; [| apply IH; assumption].
  apply negb_true_iff. apply negb_true_iff in Hlt.
  destruct (line_terminator_at (String c a)) eqn:E; [| reflexivity].
  apply (line_terminator_at_app _ b) in E. simpl in E. congruence.
Qed.

Lemma dot_star_app_r (a b : string) :
  dot_star (a ++ b) = true -> dot_star b = true.
Proof.
  induction a as [| c a IH]; simpl; [tauto |].
  intro H. apply andb_true_iff in H. apply IH. apply H.
Qed.

Lemma is_empty_false (s : string) : is_empty s = false <-> s <> "".
Proof. destruct s; simpl; split; congruence. Qed.

(** What [first_group] returns is a split of its input at the separator,
    with the first group extending [taken]. *)
Lemma first_group_sound (s taken mime payload : string) :
  first_group taken s = Some (mime, payload) ->
  exists more,
    mime = taken ++ more /\ s = more ++ ";base64," ++ payload /\
    mime <> "" /\ payload <> "" /\
    dot_star s = true.
Proof.
  revert taken. induction s as [| c rest IH]; intro taken; simpl;
    [discriminate |].
  destruct (line_terminator_at (String c rest)) eqn:Hlt.
  - destruct (is_empty taken) eqn:Hempty; [discriminate |].
    unfold after_first_group.
    destruct (strip_prefix ";base64," (String c rest)) as [r |] eqn:Hsep;
      [| discriminate].
    (* the separator starts with ';', which is no line terminator *)
    apply strip_prefix_spec in Hsep. inversion Hsep; subst.
    vm_compute in Hlt. discriminate.
  - destruct (first_group (taken ++ String c "") rest) as [[m p] |] eqn:Hlonger.
    + intro H; inversion H; subst. apply IH in Hlonger.
      destruct Hlonger as [more [Hm [Hs [Hne [Hp Hdots]]]]].
      exists (String c more). rewrite string_app_assoc in Hm.
      split; [exact Hm |].
      split; [simpl; rewrite Hs; reflexivity |].
      split; [assumption |].
      split; [assumption |].
      rewrite Hdots, andb_true_r. reflexivity.
    + destruct (is_empty taken) eqn:Hempty; [discriminate |].
      unfold after_first_group, last_group.
      destruct (strip_prefix ";base64," (String c rest)) as [r |] eqn:Hsep;
        [| discriminate].
      destruct (negb (is_empty r) && dot_star r) eqn:Hlast; [| discriminate].
      intro H; inversion H; subst.
      apply andb_true_iff in Hlast. destruct Hlast as [Hr Hdots].
      apply negb_true_iff, is_empty_false in Hr.
      apply is_empty_false in Hempty.
      apply strip_prefix_spec in Hsep.
      exists "". rewrite string_app_empty_r.
      split; [reflexivity |].
      split; [exact Hsep |].
      split; [assumption |].
      split; [assumption |].
      rewrite andb_true_iff. split; [reflexivity |].
      inversion Hsep; subst. simpl.
      apply (dot_star_app_r "base64,"). simpl. exact Hdots.
Qed.

Lemma after_first_group_separator (payload : string) :
  payload <> "" -> dot_star payload = true ->
  after_first_group (";base64," ++ payload) = Some payload.
Proof.
  intros Hp Hdots. unfold after_first_group.
  rewrite strip_prefix_app. unfold last_group.
  apply is_empty_false in Hp. rewrite Hp, Hdots. reflexivity.
Qed.

(** At the separator the group either runs on to a later split or stops
    here. *)
Lemma first_group_at_separator (taken payload : string) :
  taken <> "" -> payload <> "" -> dot_star payload = true ->
  first_group taken (";base64," ++ payload)
  = match first_group (taken ++ ";") ("base64," ++ payload) with
    | Some groups => Some groups
    | None => Some (taken, payload)
    end.
Proof.
  intros Ht Hp Hdots.
  pose proof (after_first_group_separator payload Hp Hdots) as Hafter.
  apply is_empty_false in Ht.
  change (";base64," ++ payload) with (String ";" ("base64," ++ payload))
    in *.
  cbn [first_group].
  change (line_terminator_at (String ";" ("base64," ++ payload))) with false.
  cbv iota. rewrite Ht, Hafter. reflexivity.
Qed.

(** Without a semicolon ahead there is nowhere to end the first group. *)
Lemma first_group_no_semicolon (s taken : string) :
  contains_char ";" s = false -> first_group taken s = None.
Proof.
  revert taken. induction s as [| c rest IH]; intro taken; simpl;
    [reflexivity |].
  intro H. apply orb_false_iff in H. destruct H as [Hc Hrest].
  rewrite (IH _ Hrest).
  assert (Hsep : after_first_group (String c rest) = None).
  { unfold after_first_group. simpl.
    change (Ascii.eqb ";" c) with (Ascii.eqb ";" c) in Hc.
    rewrite Hc. reflexivity. }
  rewrite Hsep.
  destruct (line_terminator_at (String c rest)), (is_empty taken); reflexivity.
Qed.

(** As soon as one split is possible, [first_group] finds a split. *)
Lemma first_group_finds (more taken payload : string) :
  taken ++ more <> "" -> payload <> "" ->
  dot_star (more ++ ";base64," ++ payload) = true ->
  exists groups,
    first_group taken (more ++ ";base64," ++ payload) = Some groups.
Proof.
  revert taken. induction more as [| c more IH]; intros taken Hne Hp Hdots.
  - rewrite string_app_empty_r in Hne.
    change ("" ++ ";base64," ++ payload) with (";base64," ++ payload) in *.
    rewrite first_group_at_separator;
      [| assumption | assumption
       | apply (dot_star_app_r ";base64,"); assumption].
    destruct (first_group (taken ++ ";") ("base64," ++ payload))
      as [groups |]; eexists; reflexivity.
  - change ((String c more) ++ ";base64," ++ payload)
      with (String c (more ++ ";base64," ++ payload)) in *.
    cbn [first_group]. cbn [dot_star] in Hdots.
    apply andb_true_iff in Hdots. destruct Hdots as [Hlt Hdots].
    apply negb_true_iff in Hlt. rewrite Hlt.
    destruct (IH (taken ++ String c "")) as [groups Hgroups];
      try assumption.
    + rewrite string_app_assoc. exact Hne.
    + rewrite Hgroups. exists groups. reflexivity.
Qed.

(** With no semicolon in the payload the split is the expected one. *)
Lemma first_group_complete (more taken payload : string) :
  taken ++ more <> "" -> payload <> "" ->
  dot_star (more ++ ";base64," ++ payload) = true ->
  contains_char ";" payload = false ->
  first_group taken (more ++ ";base64," ++ payload)
  = Some (taken ++ more, payload).
Proof.
  revert taken. induction more as [| c more IH];
    intros taken Hne Hp Hdots Hsemi.
  - rewrite string_app_empty_r in *.
    change ("" ++ ";base64," ++ payload) with (";base64," ++ payload) in *.
    rewrite first_group_at_separator;
      [| assumption | assumption
       | apply (dot_star_app_r ";base64,"); assumption].
    rewrite (first_group_no_semicolon ("base64," ++ payload));
      [reflexivity | simpl; exact Hsemi].
  - change ((String c more) ++ ";base64," ++ payload)
      with (String c (more ++ ";base64," ++ payload)) in *.
    cbn [first_group]. cbn [dot_star] in Hdots.
    apply andb_true_iff in Hdots. destruct Hdots as [Hlt Hdots].
    apply negb_true_iff in Hlt. rewrite Hlt.
    rewrite (IH (taken ++ String c "")); try assumption.
    + rewrite string_app_assoc. reflexivity.
    + rewrite string_app_assoc. exact Hne.
Qed.

(** X1. what the matcher returns is a reading of its input.  When
    [match_data_url] answers with two groups, the string is "data:", the
    first group, ";base64," and the second group, both groups are non-empty
    and neither holds a line terminator. *)
Theorem match_data_url_sound (s mime payload : string)
  (Hmatch : match_data_url s = Some (mime, payload)) :
  s = "data:" ++ mime ++ ";base64," ++ payload /\
  mime <> "" /\ payload <> "" /\
  dot_star mime = true /\ dot_star payload = true.
Proof.
  unfold match_data_url in Hmatch.
  destruct (strip_prefix "data:" s) as [rest |] eqn:Hprefix;
    [| discriminate].
  apply strip_prefix_spec in Hprefix.
  apply first_group_sound in Hmatch.
  destruct Hmatch as [more [Hm [Hs [Hne [Hp Hdots]]]]].
  simpl in Hm. subst more. subst rest.
  split; [exact Hprefix |].
  split; [assumption |]. split; [assumption |].
  split.
  - apply (dot_star_app_l _ _ Hdots).
  - apply dot_star_app_r in Hdots. apply (dot_star_app_r ";base64,").
    exact Hdots.
Qed.

Lemma match_data_url_sound_witness :
  "data:image/png;base64,iVBORw0KGgo="
  = "data:" ++ "image/png" ++ ";base64," ++ "iVBORw0KGgo=" /\
  "image/png" <> "" /\ "iVBORw0KGgo=" <> "" /\
  dot_star "image/png" = true /\ dot_star "iVBORw0KGgo=" = true.
Proof.
  apply (match_data_url_sound "data:image/png;base64,iVBORw0KGgo=").
  reflexivity.
Defined.

(** X2. the strings the matcher accepts.  [match_data_url] answers exactly
    on the strings made of "data:", a non-empty type, ";base64," and a
    non-empty payload, with no line terminator after the prefix; on every
    other string (no prefix, no separator, an empty group, a line break)
    it answers [null]. *)
Theorem match_data_url_accepts (s : string) :
  (exists groups, match_data_url s = Some groups) <->
  (exists mime payload,
     s = "data:" ++ mime ++ ";base64," ++ payload /\
     mime <> "" /\ payload <> "" /\
     dot_star (mime ++ ";base64," ++ payload) = true).
Proof.
  split.
  - intros [[mime payload] Hmatch].
    exists mime, payload.
    unfold match_data_url in Hmatch.
    destruct (strip_prefix "data:" s) as [rest |] eqn:Hprefix;
      [| discriminate].
    apply strip_prefix_spec in Hprefix.
    apply first_group_sound in Hmatch.
    destruct Hmatch as [more [Hm [Hs [Hne [Hp Hdots]]]]].
    simpl in Hm. subst more. subst rest.
    repeat split; assumption.
  - intros [mime [payload [Hs [Hne [Hp Hdots]]]]].
    unfold match_data_url. rewrite Hs.
    rewrite (strip_prefix_app "data:").
    apply first_group_finds; assumption.
Qed.

(** X3. building and matching are inverse.  A data URL built from a
    non-empty type and a non-empty payload, with no line terminator in it
    and no semicolon in the payload (base64 text has none), is matched back
    into exactly that type and that payload. *)
Theorem match_data_url_roundtrip (mime payload : string)
  (Hmime : mime <> "") (Hpayload : payload <> "")
  (Hdots : dot_star (mime ++ ";base64," ++ payload) = true)
  (Hsemi : contains_char ";" payload = false) :
  match_data_url (data_url (Some mime) (Some payload))
  = Some (mime, payload).
Proof.
  unfold data_url, template_string, match_data_url.
  rewrite (strip_prefix_app "data:").
  apply (first_group_complete mime "" payload); assumption.
Qed.

Lemma match_data_url_roundtrip_witness :
  match_data_url
    (data_url (Some "image/svg+xml;charset=utf-8") (Some "PHN2Zz48L3N2Zz4="))
  = Some ("image/svg+xml;charset=utf-8", "PHN2Zz48L3N2Zz4=").
Proof.
  apply (match_data_url_roundtrip
           "image/svg+xml;charset=utf-8" "PHN2Zz48L3N2Zz4=").
  - discriminate.
  - discriminate.
  - reflexivity.
  - reflexivity.
Defined.

(** The matcher on the edges: a missing prefix, an empty payload, a line
    break inside the payload, and a payload that itself holds the
    separator (the first group is greedy and runs to the last one). *)
Example match_data_url_edges :
  match_data_url "image/png;base64,AAAA" = None /\
  match_data_url "data:image/png;base64," = None /\
  match_data_url "data:;base64,AAAA" = None /\
  match_data_url
    ("data:image/png;base64,AA" ++ String (byte 10) "AA") = None /\
  match_data_url "data:a;base64,b;base64,c" = Some ("a;base64,b", "c").
Proof. repeat split. Qed.

(** ** Image editing and generation *)

(** The loop returns the first part that carries inline data and fails
    only when no part does. *)
Lemma first_inline_image_spec (ps : list GenAI.Part) :
  (Forall ImageStudio.no_inline ps /\
   ImageStudio.first_inline_image ps = Throw ImageStudio.no_image)
  \/
  (exists before part blob after,
     ps = (before ++ part :: after)%list /\ Forall ImageStudio.no_inline before /\
     GenAI.inlineData part = Some blob /\
     ImageStudio.first_inline_image ps
     = Normal (data_url (GenAI.mimeType blob) (GenAI.data blob))).
Proof.
  induction ps as [| p ps IH].
  - left. split; [constructor | reflexivity].
  - simpl. destruct (GenAI.inlineData p) as [blob |] eqn:Hp.
    + right. exists [], p, blob, ps.
      repeat split; [constructor | assumption].
    + destruct IH as [[Hall Hthrow] | [before [q [blob [after H]]]]].
      * left. split; [constructor; assumption | assumption].
      * destruct H as [Hps [Hbefore [Hq Hres]]].
        right. exists (p :: before), q, blob, after.
        repeat split; try assumption.
        -- rewrite Hps. reflexivity.
        -- constructor; assumption.
Qed.

(** X4. an image that [editUserImage] or [generateMotivationImage] returns
    is taken from the answer of the model and from nothing else: the model
    was called and answered, and the URL is the template
    [data:<type>;base64,<payload>] filled with the type and the payload of
    the first part with inline data of the first candidate, parts without
    inline data before it being skipped.  Neither field is checked: a blob
    without type and payload gives "data:undefined;base64,undefined", and
    one with an empty type and payload gives "data:;base64,", which the
    matcher of [editUserImage] itself refuses. *)
Theorem returned_image_is_first_inline_part
  (generateContent : GenAI.Request -> Completion GenAI.Response)
  (arg1 arg2 url : string)
  (Hreturned :
     ImageStudio.editUserImage generateContent arg1 arg2 = Normal url \/
     ImageStudio.generateMotivationImage generateContent arg1 arg2
     = Normal url) :
  (exists request response before part blob after,
     generateContent request = Normal response /\
     GenAI.first_candidate_parts response = (before ++ part :: after)%list /\
     Forall ImageStudio.no_inline before /\
     GenAI.inlineData part = Some blob /\
     url = data_url (GenAI.mimeType blob) (GenAI.data blob)) /\
  data_url None None = "data:undefined;base64,undefined" /\
  data_url (Some "") (Some "") = "data:;base64," /\
  match_data_url (data_url (Some "") (Some "")) = None.
Proof.
  split; [| repeat split].
  assert (Hloop : forall request response,
    generateContent request = Normal response ->
    ImageStudio.first_inline_image (GenAI.first_candidate_parts response)
    = Normal url ->
    exists request response before part blob after,
      generateContent request = Normal response /\
      GenAI.first_candidate_parts response = (before ++ part :: after)%list /\
      Forall ImageStudio.no_inline before /\
      GenAI.inlineData part = Some blob /\
      url = data_url (GenAI.mimeType blob) (GenAI.data blob)).
  { intros request response Hcall Hloop.
    destruct (first_inline_image_spec (GenAI.first_candidate_parts response))
      as [[_ Hthrow] | [before [part [blob [after H]]]]].
    - rewrite Hthrow in Hloop. discriminate.
    - destruct H as [Hps [Hbefore [Hpart Hres]]].
      rewrite Hres in Hloop. inversion Hloop; subst.
      exists request, response, before, part, blob, after.
      repeat split; assumption. }
  destruct Hreturned as [H | H].
  - unfold ImageStudio.editUserImage in H.
    destruct (match_data_url arg1) as [[m d] |]; [| discriminate].
    destruct (generateContent _) as [response | e] eqn:Hcall;
      [| discriminate].
    apply (Hloop _ _ Hcall H).
  - unfold ImageStudio.generateMotivationImage in H.
    destruct (generateContent _) as [response | e] eqn:Hcall;
      [| discriminate].
    apply (Hloop _ _ Hcall H).
Qed.

Lemma returned_image_is_first_inline_part_witness :
  (exists request response before part blob after,
     ImageStudio.image_model_answers ImageStudio.sample_image_response request
     = Normal response /\
     GenAI.first_candidate_parts response = (before ++ part :: after)%list /\
     Forall ImageStudio.no_inline before /\
     GenAI.inlineData part = Some blob /\
     "data:image/png;base64,iVBORw0KGgo="
     = data_url (GenAI.mimeType blob) (GenAI.data blob)) /\
  data_url None None = "data:undefined;base64,undefined" /\
  data_url (Some "") (Some "") = "data:;base64," /\
  match_data_url (data_url (Some "") (Some "")) = None.
Proof.
  apply (returned_image_is_first_inline_part
           (ImageStudio.image_model_answers ImageStudio.sample_image_response)
           "a neon gym" "16:9" "data:image/png;base64,iVBORw0KGgo=").
  right. reflexivity.
Defined.

(** X5. "No image generated." is raised exactly when the first candidate of
    the answer has no part with inline data: an answer without candidates,
    without content or with text parts only.  A part with inline data
    anywhere among the parts of the first candidate prevents it. *)
Theorem no_image_iff_no_inline_part
  (response : GenAI.Response) (prompt aspectRatio : string) :
  ImageStudio.generateMotivationImage
    (ImageStudio.image_model_answers response) prompt aspectRatio
  = Throw ImageStudio.no_image
  <-> Forall ImageStudio.no_inline (GenAI.first_candidate_parts response).
Proof.
  unfold ImageStudio.generateMotivationImage, ImageStudio.image_model_answers.
  cbn [bind].
  destruct (first_inline_image_spec (GenAI.first_candidate_parts response))
    as [[Hall Hthrow] | [before [q [blob [after [Hps [Hbefore [Hq Hres]]]]]]]].
  - split; [intros _; assumption | intros _; assumption].
  - rewrite Hres. split; [discriminate |].
    intro Hall. rewrite Hps in Hall.
    apply Forall_app in Hall. destruct Hall as [_ Hall].
    inversion Hall as [| x l Hx Hl]; subst.
    unfold ImageStudio.no_inline in Hx. congruence.
Qed.

(** X6. [editUserImage] checks its picture before anything else.  A picture
    that is not a data URL raises "Invalid image data" whatever the model
    would do, and when the model answers this is the only way to get that
    error. *)
Theorem edit_rejects_non_data_url
  (generateContent : GenAI.Request -> Completion GenAI.Response)
  (response : GenAI.Response) (base64Image prompt : string) :
  (match_data_url base64Image = None ->
   ImageStudio.editUserImage generateContent base64Image prompt
   = Throw ImageStudio.invalid_image) /\
  (ImageStudio.editUserImage
     (ImageStudio.image_model_answers response) base64Image prompt
   = Throw ImageStudio.invalid_image ->
   match_data_url base64Image = None).
Proof.
  unfold ImageStudio.editUserImage. split.
  - intro H. rewrite H. reflexivity.
  - destruct (match_data_url base64Image) as [[m d] |]; [| reflexivity].
    unfold ImageStudio.image_model_answers. cbn [bind].
    destruct (first_inline_image_spec (GenAI.first_candidate_parts response))
      as [[_ Hthrow] | [before [q [blob [after [_ [_ [_ Hres]]]]]]]].
    + rewrite Hthrow. discriminate.
    + rewrite Hres. discriminate.
Qed.

(** X7. a generated picture can be edited.  When the first inline part of
    the answer has a non-empty type and a non-empty payload, free of line
    terminators and with no semicolon in the payload, the URL that
    [generateMotivationImage] returns is read back by the matcher of
    [editUserImage] into that type and payload, so a later edit of it
    reaches the model instead of failing on "Invalid image data". *)
Theorem generated_image_is_editable
  (response : GenAI.Response) (before after : list GenAI.Part)
  (caption : option string) (mime payload prompt aspectRatio : string)
  (Hparts :
     GenAI.first_candidate_parts response
     = (before
        ++ GenAI.mkPart caption
             (Some (GenAI.mkBlob (Some mime) (Some payload)))
        :: after)%list)
  (Hbefore : Forall ImageStudio.no_inline before)
  (Hmime : mime <> "") (Hpayload : payload <> "")
  (Hdots : dot_star (mime ++ ";base64," ++ payload) = true)
  (Hsemi : contains_char ";" payload = false) :
  let url := data_url (Some mime) (Some payload) in
  ImageStudio.generateMotivationImage
    (ImageStudio.image_model_answers response) prompt aspectRatio
  = Normal url /\
  match_data_url url = Some (mime, payload) /\
  forall (generateContent : GenAI.Request -> Completion GenAI.Response)
         (instruction : string),
    ImageStudio.editUserImage generateContent url instruction
    = bind (generateContent
              {| GenAI.image_model := "gemini-2.5-flash-image";
                 GenAI.source := Some (mime, payload);
                 GenAI.instruction :=
                   instruction ++ " Return ONLY the edited image.";
                 GenAI.imageConfig := None |})
           (fun edited =>
              ImageStudio.first_inline_image
                (GenAI.first_candidate_parts edited)).
Proof.
  cbv zeta.
  assert (Hread : match_data_url (data_url (Some mime) (Some payload))
                  = Some (mime, payload)).
  { unfold data_url, template_string, match_data_url.
    rewrite (strip_prefix_app "data:").
    apply (first_group_complete mime "" payload); assumption. }
  split; [| split].
  - unfold ImageStudio.generateMotivationImage,
      ImageStudio.image_model_answers.
    cbn [bind]. rewrite Hparts. clear Hparts.
    induction Hbefore as [| p before Hp Hbefore IH]; simpl.
    + reflexivity.
    + unfold ImageStudio.no_inline in Hp. rewrite Hp. exact IH.
  - exact Hread.
  - intros generateContent instruction.
    unfold ImageStudio.editUserImage. rewrite Hread. reflexivity.
Qed.

Lemma generated_image_is_editable_witness :
  let url := data_url (Some "image/png") (Some "iVBORw0KGgo=") in
  ImageStudio.generateMotivationImage
    (ImageStudio.image_model_answers ImageStudio.sample_image_response)
    "a neon gym" "16:9"
  = Normal url /\
  match_data_url url = Some ("image/png", "iVBORw0KGgo=") /\
  forall (generateContent : GenAI.Request -> Completion GenAI.Response)
         (instruction : string),
    ImageStudio.editUserImage generateContent url instruction
    = bind (generateContent
              {| GenAI.image_model := "gemini-2.5-flash-image";
                 GenAI.source := Some ("image/png", "iVBORw0KGgo=");
                 GenAI.instruction :=
                   instruction ++ " Return ONLY the edited image.";
                 GenAI.imageConfig := None |})
           (fun edited =>
              ImageStudio.first_inline_image
                (GenAI.first_candidate_parts edited)).
Proof.
  apply (generated_image_is_editable
           ImageStudio.sample_image_response
           [GenAI.mkPart (Some "Here is your poster.") None] []
           None "image/png" "iVBORw0KGgo=" "a neon gym" "16:9").
  - reflexivity.
  - repeat constructor.
  - discriminate.
  - discriminate.
  - reflexivity.
  - reflexivity.
Defined.

(** ** The studio page *)

(** X8. what a handler of the studio page may change.  Whatever the model
    does, [handleEdit] leaves the tab, the picture, both prompts, the
    aspect ratio and the generated poster as they were, [handleGenerate]
    leaves the tab, the picture, both prompts, the aspect ratio and the
    edited picture as they were, each shows at most one alert, and each
    either changes nothing at all or ends with the busy flag down. *)
Theorem studio_handlers_frame
  (generateContent : GenAI.Request -> Completion GenAI.Response)
  (st : ImageStudio.State) :
  let e := ImageStudio.handleEdit generateContent st in
  let g := ImageStudio.handleGenerate generateContent st in
  (e = st \/ ImageStudio.loading e = false) /\
  (g = st \/ ImageStudio.loading g = false) /\
  ImageStudio.activeTab e = ImageStudio.activeTab st /\
  ImageStudio.sourceImage e = ImageStudio.sourceImage st /\
  ImageStudio.editPrompt e = ImageStudio.editPrompt st /\
  ImageStudio.genPrompt e = ImageStudio.genPrompt st /\
  ImageStudio.aspectRatio e = ImageStudio.aspectRatio st /\
  ImageStudio.generatedResult e = ImageStudio.generatedResult st /\
  ImageStudio.activeTab g = ImageStudio.activeTab st /\
  ImageStudio.sourceImage g = ImageStudio.sourceImage st /\
  ImageStudio.editPrompt g = ImageStudio.editPrompt st /\
  ImageStudio.genPrompt g = ImageStudio.genPrompt st /\
  ImageStudio.aspectRatio g = ImageStudio.aspectRatio st /\
  ImageStudio.editedResult g = ImageStudio.editedResult st /\
  (ImageStudio.alerts e = ImageStudio.alerts st \/
   ImageStudio.alerts e
   = "Failed to edit image. Please try again." :: ImageStudio.alerts st) /\
  (ImageStudio.alerts g = ImageStudio.alerts st \/
   ImageStudio.alerts g
   = "Failed to generate image. Please try again."
     :: ImageStudio.alerts st).
Proof.
  cbv zeta. unfold ImageStudio.handleEdit, ImageStudio.handleGenerate.
  destruct (ImageStudio.sourceImage st) as [picture |] eqn:Hsrc;
    [destruct (is_empty picture || is_empty (ImageStudio.editPrompt st));
     [| destruct (ImageStudio.editUserImage generateContent picture
                    (ImageStudio.editPrompt st))] |];
    (destruct (is_empty (ImageStudio.genPrompt st));
     [| destruct (ImageStudio.generateMotivationImage generateContent
                    (ImageStudio.genPrompt st) (ImageStudio.aspectRatio st))]);
    simpl; rewrite ?Hsrc; repeat split; auto.
Qed.

(** X9. what an edit leaves on the page.  Once a picture and an instruction
    are given, [handleEdit] ends with the busy flag down; the result shown
    is the URL [editUserImage] returned, or nothing when it failed: a
    result of an earlier edit never survives a failed one, and a failure
    adds the alert "Failed to edit image. Please try again.".  A picture
    that is not a data URL always ends that way. *)
Theorem edit_result_shown
  (generateContent : GenAI.Request -> Completion GenAI.Response)
  (st : ImageStudio.State) (picture : string)
  (Hsource : ImageStudio.sourceImage st = Some picture)
  (Hpicture : picture <> "")
  (Hprompt : ImageStudio.editPrompt st <> "") :
  let st' := ImageStudio.handleEdit generateContent st in
  ImageStudio.loading st' = false /\
  (forall url,
     ImageStudio.editedResult st' = Some url <->
     ImageStudio.editUserImage generateContent picture
       (ImageStudio.editPrompt st) = Normal url) /\
  (ImageStudio.editedResult st' = None <->
   ImageStudio.alerts st'
   = "Failed to edit image. Please try again." :: ImageStudio.alerts st) /\
  (match_data_url picture = None ->
   ImageStudio.editedResult st' = None /\
   ImageStudio.alerts st'
   = "Failed to edit image. Please try again." :: ImageStudio.alerts st).
Proof.
  cbv zeta. unfold ImageStudio.handleEdit. rewrite Hsource.
  apply is_empty_false in Hpicture. apply is_empty_false in Hprompt.
  rewrite Hpicture, Hprompt. cbn [orb].
  assert (Hfresh : forall l : list string,
            l <> "Failed to edit image. Please try again." :: l).
  { intros l H. apply (f_equal (@List.length string)) in H.
    simpl in H. lia. }
  destruct (ImageStudio.editUserImage generateContent picture
              (ImageStudio.editPrompt st)) as [result | e] eqn:Hedit; simpl.
  - split; [reflexivity |]. split; [| split].
    + intro url. split; intro H; inversion H; reflexivity.
    + split; [discriminate | intro H; exfalso; apply (Hfresh _ H)].
    + intro Hbad. unfold ImageStudio.editUserImage in Hedit.
      rewrite Hbad in Hedit. discriminate.
  - split; [reflexivity |]. split; [| split].
    + intro url. split; discriminate.
    + split; reflexivity.
    + intros _. split; reflexivity.
Qed.

Lemma edit_result_shown_witness :
  let st :=
    {| ImageStudio.activeTab := "edit"; ImageStudio.loading := false;
       ImageStudio.sourceImage := Some "data:image/png;base64,iVBORw0KGgo=";
       ImageStudio.editPrompt := "Add a retro filter";
       ImageStudio.editedResult := Some "data:image/png;base64,b2xk";
       ImageStudio.genPrompt := ""; ImageStudio.aspectRatio := "1:1";
       ImageStudio.generatedResult := None; ImageStudio.alerts := [] |} in
  let st' := ImageStudio.handleEdit ImageStudio.image_model_fails st in
  ImageStudio.loading st' = false /\
  (forall url,
     ImageStudio.editedResult st' = Some url <->
     ImageStudio.editUserImage ImageStudio.image_model_fails
       "data:image/png;base64,iVBORw0KGgo="
       (ImageStudio.editPrompt st) = Normal url) /\
  (ImageStudio.editedResult st' = None <->
   ImageStudio.alerts st'
   = "Failed to edit image. Please try again." :: ImageStudio.alerts st) /\
  (match_data_url "data:image/png;base64,iVBORw0KGgo=" = None ->
   ImageStudio.editedResult st' = None /\
   ImageStudio.alerts st'
   = "Failed to edit image. Please try again." :: ImageStudio.alerts st).
Proof.
  cbv zeta.
  apply (edit_result_shown ImageStudio.image_model_fails
           {| ImageStudio.activeTab := "edit"; ImageStudio.loading := false;
              ImageStudio.sourceImage :=
                Some "data:image/png;base64,iVBORw0KGgo=";
              ImageStudio.editPrompt := "Add a retro filter";
              ImageStudio.editedResult := Some "data:image/png;base64,b2xk";
              ImageStudio.genPrompt := ""; ImageStudio.aspectRatio := "1:1";
              ImageStudio.generatedResult := None;
              ImageStudio.alerts := [] |}
           "data:image/png;base64,iVBORw0KGgo=").
  - reflexivity.
  - discriminate.
  - discriminate.
Defined.

(** ** [generateWorkoutPlan] *)

(** X10. the earlier [generateWorkoutPlan] always answers, and always with a
    trainer.  Whatever the AI call and the parser do, for every picture,
    name, quiz data and value in [0,1) of the random source, it returns a
    response (it never throws) whose [assigned_trainer] is present and
    names Athul, Athithiya or Saieel. *)
Theorem earlier_plan_always_has_trainer
  (generateContent : Plan.Request -> Completion (option string))
  (JSON_parse : string -> option Plan.ResponseJson)
  (reportImage : option string) (userName : string)
  (quizData : option QuizData) (r : Q)
  (Hlo : 0 <= r) (Hhi : r < 1) :
  exists response n,
    EarlierPlan.generateWorkoutPlan generateContent JSON_parse
      reportImage userName quizData r = Normal response /\
    Plan.assigned_trainer response = Some (Plan.mkAssignedTrainer (Some n)) /\
    In n ["Athul"; "Athithiya"; "Saieel"].
Proof.
  unfold EarlierPlan.generateWorkoutPlan, EarlierPlan.plan_body.
  destruct (generateContent _) as [text | e]; cbn [bind try_catch].
  - destruct (Plan.read_plan JSON_parse text) as [fields | e];
      cbn [bind try_catch].
    + rewrite assignedTrainerName_pool.
      destruct (pool_for_sound (option_map goal quizData)) as [Hne Hincl].
      destruct (random_element_defined _ r Hne Hlo Hhi) as [n [Hn Hin]].
      eexists. exists n. split; [reflexivity |]. simpl. rewrite Hn.
      split; [reflexivity | apply Hincl; assumption].
    + exists EarlierPlan.placeholder, "Athul".
      repeat split. simpl. auto.
  - exists EarlierPlan.placeholder, "Athul".
    repeat split. simpl. auto.
Qed.

Lemma earlier_plan_always_has_trainer_witness :
  exists response n,
    EarlierPlan.generateWorkoutPlan
      (plan_model_answers (Some "{}")) (plan_parse_gives (Some Plan.JsonNull))
      None "Dana" (Some worked_example) (1 # 2) = Normal response /\
    Plan.assigned_trainer response = Some (Plan.mkAssignedTrainer (Some n)) /\
    In n ["Athul"; "Athithiya"; "Saieel"].
Proof.
  apply (earlier_plan_always_has_trainer
           (plan_model_answers (Some "{}"))
           (plan_parse_gives (Some Plan.JsonNull))
           None "Dana" (Some worked_example) (1 # 2)).
  - unfold Qle; simpl; lia.
  - unfold Qlt; simpl; lia.
Defined.

(** X11. the four ways a plan can fail, in both versions.  When the AI call
    throws, when its answer has no text, when the text is not JSON and when
    it is the JSON [null], the earlier service returns its placeholder
    (trainer Athul whatever the goal and the draw, no draft, the note "AI
    failed to generate a plan.") and the current service throws: the error
    of the call, a [SyntaxError] or a [TypeError]. *)
Theorem plan_failure_paths
  (JSON_parse : string -> option Plan.ResponseJson)
  (e : JsError) (response_text : string)
  (reportImage : option string) (userName : string)
  (quizData : option QuizData) (r : Q) :
  let earlier gc parse :=
    EarlierPlan.generateWorkoutPlan gc parse reportImage userName quizData r in
  let current gc parse :=
    CurrentPlan.generateWorkoutPlan gc parse reportImage userName quizData r in
  earlier (plan_model_fails e) JSON_parse = Normal EarlierPlan.placeholder /\
  earlier (plan_model_answers None) JSON_parse
  = Normal EarlierPlan.placeholder /\
  earlier (plan_model_answers (Some response_text)) (plan_parse_gives None)
  = Normal EarlierPlan.placeholder /\
  earlier (plan_model_answers (Some response_text))
          (plan_parse_gives (Some Plan.JsonNull))
  = Normal EarlierPlan.placeholder /\
  current (plan_model_fails e) JSON_parse = Throw e /\
  (exists err, current (plan_model_answers None) JSON_parse = Throw err
               /\ error_class err = SyntaxError) /\
  (exists err,
     current (plan_model_answers (Some response_text)) (plan_parse_gives None)
     = Throw err /\ error_class err = SyntaxError) /\
  (exists err,
     current (plan_model_answers (Some response_text))
             (plan_parse_gives (Some Plan.JsonNull))
     = Throw err /\ error_class err = TypeError).
Proof.
  cbv zeta. repeat split; try reflexivity; eexists; split; reflexivity.
Qed.

(** X12. telling a real plan from the placeholder.  In a response of the
    earlier [generateWorkoutPlan], [extracted_from_report] is present
    exactly when the checklist and the signature line are absent, and then
    the response is the placeholder: the draft is [null] and the trainer is
    Athul.  A response with a checklist carries the signature "Draft by
    iFitBot AI for" followed by the client's name. *)
Theorem earlier_plan_placeholder_marks
  (generateContent : Plan.Request -> Completion (option string))
  (JSON_parse : string -> option Plan.ResponseJson)
  (reportImage : option string) (userName : string)
  (quizData : option QuizData) (r : Q)
  (response : Plan.WorkoutPlanApiResponse)
  (Hreturned :
     EarlierPlan.generateWorkoutPlan generateContent JSON_parse
       reportImage userName quizData r = Normal response) :
  (response = EarlierPlan.placeholder /\
   Plan.extracted_from_report response <> None /\
   Plan.trainer_checklist response = None /\
   Plan.signature_line response = None)
  \/
  (Plan.extracted_from_report response = None /\
   Plan.trainer_checklist response = Some EarlierPlan.trainer_checklist /\
   Plan.signature_line response
   = Some ("Draft by iFitBot AI for " ++ userName) /\
   Plan.assigned_trainer response
   = Some (Plan.mkAssignedTrainer
             (EarlierService.assignedTrainerName
                (option_map goal quizData) r))).
Proof.
  unfold EarlierPlan.generateWorkoutPlan, EarlierPlan.plan_body in Hreturned.
  destruct (generateContent _) as [text | e]; cbn [bind try_catch] in Hreturned.
  - destruct (Plan.read_plan JSON_parse text) as [fields | e];
      cbn [bind try_catch] in Hreturned; inversion Hreturned; subst.
    + right. repeat split.
    + left. repeat split. discriminate.
  - inversion Hreturned; subst. left. repeat split. discriminate.
Qed.

Lemma earlier_plan_placeholder_marks_witness :
  (EarlierPlan.placeholder = EarlierPlan.placeholder /\
   Plan.extracted_from_report EarlierPlan.placeholder <> None /\
   Plan.trainer_checklist EarlierPlan.placeholder = None /\
   Plan.signature_line EarlierPlan.placeholder = None)
  \/
  (Plan.extracted_from_report EarlierPlan.placeholder = None /\
   Plan.trainer_checklist EarlierPlan.placeholder
   = Some EarlierPlan.trainer_checklist /\
   Plan.signature_line EarlierPlan.placeholder
   = Some ("Draft by iFitBot AI for " ++ "Dana") /\
   Plan.assigned_trainer EarlierPlan.placeholder
   = Some (Plan.mkAssignedTrainer
             (EarlierService.assignedTrainerName
                (option_map goal (Some worked_example)) (1 # 2)))).
Proof.
  apply (earlier_plan_placeholder_marks
           (plan_model_fails (mkJsError ApiError "503 Service Unavailable"))
           (plan_parse_gives None)
           None "Dana" (Some worked_example) (1 # 2)
           EarlierPlan.placeholder).
  reflexivity.
Defined.

(** ** The chat assistants *)

Lemma pop_last {A : Type} (l : list A) (x : A) :
  Chat.pop (l ++ [x])%list = (Some x, l).
Proof.
  induction l as [| y l IH]; [reflexivity |].
  change ((y :: l) ++ [x])%list with (y :: (l ++ [x]))%list.
  cbn [Chat.pop]. rewrite IH.
  destruct (l ++ [x])%list eqn:E; [| reflexivity].
  destruct l; discriminate.
Qed.

(** With a last message, the chat is opened on the messages before it and
    the text of the last one is what is sent. *)
Lemma converse_last
  (sendMessage : Chat.Session -> Completion (option string))
  (chat_model : string) (instruction : Chat.SystemInstruction)
  (no_message : string)
  (earlier_messages : list Chat.ChatMessage) (last : Chat.ChatMessage) :
  Chat.converse sendMessage chat_model instruction no_message
    (earlier_messages ++ [last])%list
  = sendMessage
      {| Chat.chat_model := chat_model;
         Chat.history := map Chat.to_content earlier_messages;
         Chat.systemInstruction := instruction;
         Chat.message := Chat.text last |}.
Proof.
  unfold Chat.converse. rewrite map_app. simpl map.
  rewrite pop_last. simpl.
  destruct (sendMessage _); reflexivity.
Qed.

(** X13. what the trainer chatbot sends and what it answers.  With no
    message at all both versions answer with their fixed sentence and the
    model is not consulted.  Otherwise the chat is opened on all messages
    but the last, in their order and with their roles, and the text of the
    last message is sent; the current service returns what the model gives
    or throws what it throws, the earlier service turns every failure into
    its apology. *)
Theorem trainer_chatbot_exchange
  (sendMessage : Chat.Session -> Completion (option string))
  (plan : Plan.PendingWorkoutPlan)
  (earlier_messages : list Chat.ChatMessage) (last : Chat.ChatMessage) :
  let draft := Plan.workout_guide_draft (Plan.planData plan) in
  let sent model instruction :=
    sendMessage
      {| Chat.chat_model := model;
         Chat.history := map Chat.to_content earlier_messages;
         Chat.systemInstruction := instruction;
         Chat.message := Chat.text last |} in
  EarlierChat.getTrainerChatbotResponse sendMessage plan []
  = Normal (Some "I'm sorry, I didn't receive a question.") /\
  CurrentChat.getTrainerChatbotResponse sendMessage plan []
  = Normal (Some "Error: No message.") /\
  CurrentChat.getTrainerChatbotResponse sendMessage plan
    (earlier_messages ++ [last])%list
  = sent "gemini-2.5-flash-lite" (Chat.TrainerAssistantBrief draft) /\
  EarlierChat.getTrainerChatbotResponse sendMessage plan
    (earlier_messages ++ [last])%list
  = match sent "gemini-2.5-flash"
            (Chat.TrainerAssistant (Plan.userName plan) (Plan.quizData plan)
               draft) with
    | Normal reply => Normal reply
    | Throw _ =>
        Normal (Some "I apologize, but I encountered an error and cannot respond at this moment.")
    end.
Proof.
  cbv zeta. split; [reflexivity |]. split; [reflexivity |]. split.
  - unfold CurrentChat.getTrainerChatbotResponse. apply converse_last.
  - unfold EarlierChat.getTrainerChatbotResponse.
    rewrite converse_last. reflexivity.
Qed.

(** X14. the same for the calorie coach.  An empty conversation gets the
    fixed sentence; otherwise the last message is sent on a chat opened
    with the messages before it; a failure of the model is thrown by the
    current service and becomes an apology in the earlier one. *)
Theorem calorie_coach_exchange
  (sendMessage : Chat.Session -> Completion (option string))
  (earlier_messages : list Chat.ChatMessage) (last : Chat.ChatMessage) :
  let sent model instruction :=
    sendMessage
      {| Chat.chat_model := model;
         Chat.history := map Chat.to_content earlier_messages;
         Chat.systemInstruction := instruction;
         Chat.message := Chat.text last |} in
  EarlierChat.getCalorieCoachResponse sendMessage []
  = Normal (Some "Sorry, I didn't get that. What food are you curious about?")
  /\
  CurrentChat.getCalorieCoachResponse sendMessage []
  = Normal (Some "Sorry, I didn't get that.") /\
  CurrentChat.getCalorieCoachResponse sendMessage
    (earlier_messages ++ [last])%list
  = sent "gemini-2.5-flash-lite" Chat.CalorieCoachBrief /\
  EarlierChat.getCalorieCoachResponse sendMessage
    (earlier_messages ++ [last])%list
  = match sent "gemini-2.5-flash" Chat.CalorieCoach with
    | Normal reply => Normal reply
    | Throw _ =>
        Normal (Some "I apologize, but I couldn't process that request right now. Please try again.")
    end.
Proof.
  cbv zeta. split; [reflexivity |]. split; [reflexivity |]. split.
  - unfold CurrentChat.getCalorieCoachResponse. apply converse_last.
  - unfold EarlierChat.getCalorieCoachResponse.
    rewrite converse_last. reflexivity.
Qed.

(** The chat functions on a conversation of three messages: the model is
    asked the third, on a history of the first two. *)
Example chatbot_on_three_messages :
  let conversation :=
    [ Chat.mkChatMessage Chat.user "Swap the leg press";
      Chat.mkChatMessage Chat.model "Done: back squats, 3 x 8-12.";
      Chat.mkChatMessage Chat.user "Shorten the cooldown" ] in
  CurrentChat.getTrainerChatbotResponse chat_echo sample_pending_plan
    conversation = Normal (Some "Shorten the cooldown") /\
  EarlierChat.getTrainerChatbotResponse chat_fails sample_pending_plan
    conversation
  = Normal (Some "I apologize, but I encountered an error and cannot respond at this moment.") /\
  CurrentChat.getTrainerChatbotResponse chat_fails sample_pending_plan
    conversation = Throw (mkJsError ApiError "503 Service Unavailable").
Proof. repeat split. Qed.

(** ** The trainer note *)

(** X15. [generateAutoTrainerNote] always produces a note, in both versions.
    It never throws; the note is the trimmed text of the model when there
    is one, and the version's generic note ("Hi", the client's name, a
    fixed text, the trainer's name) when the call fails or the answer has
    no text. *)
Theorem trainer_note_always_written
  (generateContent : NoteRequest -> Completion (option string))
  (trim : string -> string) (e : JsError) (answer : string)
  (userName trainerName : string) (quizData : option QuizData) :
  let earlier gc :=
    EarlierChat.generateAutoTrainerNote gc trim userName trainerName quizData in
  let current gc :=
    CurrentChat.generateAutoTrainerNote gc trim userName trainerName quizData in
  (exists note, earlier generateContent = Normal note) /\
  (exists note, current generateContent = Normal note) /\
  earlier (note_model_answers (Some answer)) = Normal (trim answer) /\
  current (note_model_answers (Some answer)) = Normal (trim answer) /\
  earlier (note_model_answers None)
  = Normal (EarlierChat.fallback_note userName trainerName) /\
  current (note_model_answers None)
  = Normal (CurrentChat.fallback_note userName trainerName) /\
  earlier (note_model_fails e)
  = Normal (EarlierChat.fallback_note userName trainerName) /\
  current (note_model_fails e)
  = Normal (CurrentChat.fallback_note userName trainerName).
Proof.
  cbv zeta.
  split.
  { unfold EarlierChat.generateAutoTrainerNote.
    destruct (generateContent _) as [[s |] | err]; eexists; reflexivity. }
  split.
  { unfold CurrentChat.generateAutoTrainerNote.
    destruct (generateContent _) as [[s |] | err]; eexists; reflexivity. }
  repeat split.
Qed.

(** ** The gauges of the report page *)

Module GaugeFacts.

Import Gauge.
Open Scope Q_scope.

Lemma Math_max_spec (a b : Q) :
  (a <= b /\ Math_max a b = b) \/ (b <= a /\ Math_max a b = a).
Proof.
  unfold Math_max. destruct (Qle_bool a b) eqn:E.
  - left. split; [apply Qle_bool_iff; assumption | reflexivity].
  - right. split; [| reflexivity].
    destruct (Qlt_le_dec b a) as [H | H]; [apply Qlt_le_weak; assumption |].
    apply Qle_bool_iff in H. congruence.
Qed.

Lemma Math_min_spec (a b : Q) :
  (a <= b /\ Math_min a b = a) \/ (b <= a /\ Math_min a b = b).
Proof.
  unfold Math_min. destruct (Qle_bool a b) eqn:E.
  - left. split; [apply Qle_bool_iff; assumption | reflexivity].
  - right. split; [| reflexivity].
    destruct (Qlt_le_dec b a) as [H | H]; [apply Qlt_le_weak; assumption |].
    apply Qle_bool_iff in H. congruence.
Qed.

Lemma visual_range_positive (lo hi : Q) :
  0 <= lo -> lo < hi -> 0 <= visualMin lo hi /\ visualMin lo hi < visualMax lo hi.
Proof.
  intros Hlo Hlt. unfold visualMin, visualMax, padding, rangeSpan.
  destruct (Math_max_spec 0 (lo - (hi - lo) * 1.5)) as [[H1 H2] | [H1 H2]]; rewrite H2; split; lra.
Qed.

Section GaugeBand.
Variables lo hi : Q.
Hypothesis Hlo : 0 <= lo.
Hypothesis Hlt : lo < hi.


Lemma span_positive : 0 < (gauge_span lo hi).
Proof.
  unfold gauge_span. destruct (visual_range_positive lo hi Hlo Hlt). lra.
Qed.

Lemma gauge_raw_le (v c : Q) : gauge_raw lo hi v <= c <-> (v - visualMin lo hi) * 100 <= c * (gauge_span lo hi).
Proof.
  unfold gauge_raw. pose proof span_positive as HD.
  assert (HDne : ~ (gauge_span lo hi) == 0) by lra.
  split; intro H.
  - assert (E : (v - visualMin lo hi) * 100 == ((v - visualMin lo hi) / (gauge_span lo hi) * 100) * (gauge_span lo hi)) by (field; assumption).
    rewrite E. apply Qmult_le_compat_r; lra.
  - assert (E : (v - visualMin lo hi) / (gauge_span lo hi) * 100 == ((v - visualMin lo hi) * 100) / (gauge_span lo hi)) by (field; assumption).
    rewrite E. apply Qle_shift_div_r; assumption.
Qed.

Lemma gauge_raw_ge (v c : Q) : c <= gauge_raw lo hi v <-> c * (gauge_span lo hi) <= (v - visualMin lo hi) * 100.
Proof.
  unfold gauge_raw. pose proof span_positive as HD.
  assert (HDne : ~ (gauge_span lo hi) == 0) by lra.
  split; intro H.
  - assert (E : (v - visualMin lo hi) * 100 == ((v - visualMin lo hi) / (gauge_span lo hi) * 100) * (gauge_span lo hi)) by (field; assumption).
    rewrite E. apply Qmult_le_compat_r; lra.
  - assert (E : (v - visualMin lo hi) / (gauge_span lo hi) * 100 == ((v - visualMin lo hi) * 100) / (gauge_span lo hi)) by (field; assumption).
    rewrite E. apply Qle_shift_div_l; assumption.
Qed.

Lemma percentage_clamps v : percentage lo hi v = Math_max 0 (Math_min 100 (gauge_raw lo hi v)).
Proof. reflexivity. Qed.

Lemma percentage_bounds v : 0 <= percentage lo hi v <= 100.
Proof.
  rewrite percentage_clamps.
  destruct (Math_min_spec 100 (gauge_raw lo hi v)) as [[H1 H2] | [H1 H2]]; rewrite H2;
  destruct (Math_max_spec 0 100) as [[H3 H4] | [H3 H4]];
  destruct (Math_max_spec 0 (gauge_raw lo hi v)) as [[H5 H6] | [H5 H6]]; 
  rewrite ?H4, ?H6; lra.
Qed.

Lemma Math_min_mono (c a b : Q) : a <= b -> Math_min c a <= Math_min c b.
Proof.
  intro H.
  destruct (Math_min_spec c a) as [[H1 H2] | [H1 H2]]; rewrite H2;
  destruct (Math_min_spec c b) as [[H3 H4] | [H3 H4]]; rewrite H4; lra.
Qed.

Lemma Math_max_mono (c a b : Q) : a <= b -> Math_max c a <= Math_max c b.
Proof.
  intro H.
  destruct (Math_max_spec c a) as [[H1 H2] | [H1 H2]]; rewrite H2;
  destruct (Math_max_spec c b) as [[H3 H4] | [H3 H4]]; rewrite H4; lra.
Qed.

Lemma gauge_raw_mono v1 v2 : v1 <= v2 -> gauge_raw lo hi v1 <= gauge_raw lo hi v2.
Proof.
  intro H. apply gauge_raw_le. pose proof span_positive as HD.
  assert (HDne : ~ (gauge_span lo hi) == 0) by lra.
  assert (E : gauge_raw lo hi v2 * (gauge_span lo hi) == (v2 - visualMin lo hi) * 100) by (unfold gauge_raw; field; assumption).
  rewrite E. lra.
Qed.

Lemma percentage_mono v1 v2 : v1 <= v2 -> percentage lo hi v1 <= percentage lo hi v2.
Proof.
  intro H. rewrite !percentage_clamps.
  apply Math_max_mono, Math_min_mono, gauge_raw_mono, H.
Qed.

Lemma percentage_inside v :
  visualMin lo hi <= v -> v <= visualMax lo hi ->
  percentage lo hi v
  == (v - visualMin lo hi) / (visualMax lo hi - visualMin lo hi) * 100.
Proof.
  intros H1 H2.
  change ((v - visualMin lo hi) / (visualMax lo hi - visualMin lo hi) * 100)
    with (gauge_raw lo hi v).
  rewrite percentage_clamps.
  assert (Hr0 : 0 <= gauge_raw lo hi v) by (apply gauge_raw_ge; unfold gauge_span; lra).
  assert (Hr1 : gauge_raw lo hi v <= 100) by (apply gauge_raw_le; unfold gauge_span; lra).
  destruct (Math_min_spec 100 (gauge_raw lo hi v)) as [[H3 H4] | [H3 H4]]; rewrite H4;
  destruct (Math_max_spec 0 100) as [[H5 H6] | [H5 H6]];
  destruct (Math_max_spec 0 (gauge_raw lo hi v)) as [[H7 H8] | [H7 H8]];
  rewrite ?H6, ?H8; lra.
Qed.

Lemma percentage_low v : v <= visualMin lo hi -> percentage lo hi v == 0.
Proof.
  intro H. 
  assert (Hb := percentage_bounds v).
  assert (Hm := percentage_mono v (visualMin lo hi) H).
  destruct (visual_range_positive lo hi Hlo Hlt) as [Hv0 Hv1].
  rewrite (percentage_inside (visualMin lo hi)) in Hm; [| lra | lra].
  assert (E : (visualMin lo hi - visualMin lo hi)
               / (visualMax lo hi - visualMin lo hi) * 100 == 0).
  { pose proof span_positive as HD. unfold gauge_span in HD. field. lra. }
  lra.
Qed.

Lemma percentage_high v : visualMax lo hi <= v -> percentage lo hi v == 100.
Proof.
  intro H. 
  assert (Hb := percentage_bounds v).
  assert (Hm := percentage_mono (visualMax lo hi) v H).
  destruct (visual_range_positive lo hi Hlo Hlt) as [Hv0 Hv1].
  rewrite (percentage_inside (visualMax lo hi)) in Hm; [| lra | lra].
  assert (E : (visualMax lo hi - visualMin lo hi)
               / (visualMax lo hi - visualMin lo hi) * 100 == 100).
  { pose proof span_positive as HD. unfold gauge_span in HD. field. lra. }
  lra.
Qed.

End GaugeBand.

End GaugeFacts.

(** X16. the needle of a gauge.  For an ideal band with 0 <= min < max the
    percentage drawn lies between 0 and 100, never decreases when the value
    grows, is 0 up to the low end of the visual range and 100 from its high
    end on; the dash offset of the arc accordingly lies between 0 and the
    half circumference and never grows with the value. *)
Theorem gauge_needle_bounded_monotone (idealMin idealMax : Q)
  (Hmin : 0 <= idealMin) (Hband : idealMin < idealMax) :
  (forall v, 0 <= Gauge.percentage idealMin idealMax v <= 100) /\
  (forall v1 v2, v1 <= v2 ->
     Gauge.percentage idealMin idealMax v1
     <= Gauge.percentage idealMin idealMax v2) /\
  (forall v, v <= Gauge.visualMin idealMin idealMax ->
     Gauge.percentage idealMin idealMax v == 0) /\
  (forall v, Gauge.visualMax idealMin idealMax <= v ->
     Gauge.percentage idealMin idealMax v == 100) /\
  (forall v, 0 <= Gauge.dashOffset idealMin idealMax v
             <= Gauge.circumference) /\
  (forall v1 v2, v1 <= v2 ->
     Gauge.dashOffset idealMin idealMax v2
     <= Gauge.dashOffset idealMin idealMax v1).
Proof.
  assert (Hoffset : forall v,
    Gauge.dashOffset idealMin idealMax v
    == Gauge.circumference
       - Gauge.percentage idealMin idealMax v * (1 # 100)
         * Gauge.circumference).
  { intro v. unfold Gauge.dashOffset. field. }
  assert (HC : Gauge.circumference
               == (884279719003555 # 281474976710656) * 40) by reflexivity.
  split; [intro v; apply GaugeFacts.percentage_bounds; assumption |].
  split; [intros v1 v2; apply GaugeFacts.percentage_mono; assumption |].
  split; [intro v; apply GaugeFacts.percentage_low; assumption |].
  split; [intro v; apply GaugeFacts.percentage_high; assumption |].
  split.
  - intro v. rewrite Hoffset, HC.
    pose proof (GaugeFacts.percentage_bounds idealMin idealMax v).
    split; lra.
  - intros v1 v2 Hle. rewrite !Hoffset, HC.
    pose proof (GaugeFacts.percentage_mono idealMin idealMax Hmin Hband
                  v1 v2 Hle).
    lra.
Qed.

Lemma gauge_needle_bounded_monotone_witness :
  (forall v, 0 <= Gauge.percentage 10 20 v <= 100) /\
  (forall v1 v2, v1 <= v2 ->
     Gauge.percentage 10 20 v1 <= Gauge.percentage 10 20 v2) /\
  (forall v, v <= Gauge.visualMin 10 20 -> Gauge.percentage 10 20 v == 0) /\
  (forall v, Gauge.visualMax 10 20 <= v -> Gauge.percentage 10 20 v == 100) /\
  (forall v, 0 <= Gauge.dashOffset 10 20 v <= Gauge.circumference) /\
  (forall v1 v2, v1 <= v2 ->
     Gauge.dashOffset 10 20 v2 <= Gauge.dashOffset 10 20 v1).
Proof.
  apply (gauge_needle_bounded_monotone 10 20).
  - unfold Qle; simpl; lia.
  - unfold Qlt; simpl; lia.
Defined.

(** ** The roadmap of the report page *)

(** The week count can be missing: a timeline that is not realistic and
    has no adjusted value shows no number, in the roadmap and in the
    notice; the zeroed report shows 0 weeks, "N/A" and no notice. *)
Example roadmap_edges :
  Roadmap.target_timeline unadjusted_timeline = None /\
  Roadmap.adjusted_notice unadjusted_timeline = Some None /\
  Roadmap.target_timeline (timeline EarlierService.fallbackReport) = Some 0 /\
  Roadmap.excess_fat_shown (timeline EarlierService.fallbackReport) = None /\
  Roadmap.adjusted_notice (timeline EarlierService.fallbackReport) = None.
Proof. repeat split. Qed.

(** ** More on the arithmetic of the prompt *)

(** The modest goal (5 kg in 12 weeks) passes the check, with a deficit of
    about 458 kcal. *)
Example modest_goal_is_realistic :
  Arithmetic.deficit_needed modest_goal_quiz == 38500 / 84 /\
  Arithmetic.unrealistic modest_goal_quiz = false.
Proof. split; vm_compute; reflexivity. Qed.

Lemma deficit_with_period (q : QuizData) (weeks : Q) :
  Arithmetic.deficit_needed (with_period q weeks)
  = Arithmetic.total_calorie_gap q / (weeks * 7).
Proof. reflexivity. Qed.

(** A longer period needs a smaller deficit. *)
Lemma deficit_antitone (q : QuizData) (w1 w2 : Q) :
  0 < w1 -> w1 <= w2 ->
  Arithmetic.deficit_needed (with_period q w2)
  <= Arithmetic.deficit_needed (with_period q w1).
Proof.
  intros Hpos Hle. rewrite !deficit_with_period.
  pose proof (ArithmeticFacts.total_calorie_gap_nonneg q) as Hgap.
  set (g := Arithmetic.total_calorie_gap q) in *.
  assert (H1 : 0 < w1 * 7) by lra.
  assert (H2 : 0 < w2 * 7) by lra.
  apply Qle_shift_div_r; [assumption |].
  assert (E : g / (w1 * 7) * (w2 * 7) == g * ((w2 * 7) / (w1 * 7))).
  { field. lra. }
  rewrite E.
  assert (Hratio : 1 <= (w2 * 7) / (w1 * 7)).
  { apply Qle_shift_div_l; [assumption | lra]. }
  setoid_replace g with (g * 1) at 1 by ring.
  rewrite (Qmult_comm g 1), (Qmult_comm g (w2 * 7 / (w1 * 7))).
  apply Qmult_le_compat_r; assumption.
Qed.

(** X20. more time never hurts.  With everything else in the quiz
    unchanged, a longer target period (both periods positive) needs a daily
    deficit that is no larger, and a plan that passes the realism check
    still passes it with the longer period. *)
Theorem longer_period_stays_realistic (q : QuizData) (w1 w2 : Q)
  (Hpos : 0 < w1) (Hle : w1 <= w2)
  (Hreal : Arithmetic.unrealistic (with_period q w1) = false) :
  Arithmetic.deficit_needed (with_period q w2)
  <= Arithmetic.deficit_needed (with_period q w1) /\
  Arithmetic.unrealistic (with_period q w2) = false.
Proof.
  pose proof (deficit_antitone q w1 w2 Hpos Hle) as Hdef.
  split; [assumption |].
  unfold Arithmetic.unrealistic in *.
  apply orb_false_iff in Hreal. destruct Hreal as [Hmax Hmin].
  apply ArithmeticFacts.Qlt_bool_false_iff in Hmax.
  apply ArithmeticFacts.Qlt_bool_false_iff in Hmin.
  change (Arithmetic.TDEE (with_period q w1)) with (Arithmetic.TDEE q) in Hmin.
  change (gender (with_period q w1)) with (gender q) in Hmin.
  change (Arithmetic.TDEE (with_period q w2)) with (Arithmetic.TDEE q).
  change (gender (with_period q w2)) with (gender q).
  apply orb_false_iff. split; apply ArithmeticFacts.Qlt_bool_false_iff; lra.
Qed.

Lemma longer_period_stays_realistic_witness :
  Arithmetic.deficit_needed (with_period modest_goal_quiz 24)
  <= Arithmetic.deficit_needed (with_period modest_goal_quiz 12) /\
  Arithmetic.unrealistic (with_period modest_goal_quiz 24) = false.
Proof.
  apply (longer_period_stays_realistic modest_goal_quiz 12 24).
  - unfold Qlt; simpl; lia.
  - unfold Qle; simpl; lia.
  - vm_compute. reflexivity.
Defined.

(** X21. no period helps below the minimum.  When the TDEE itself is under
    the minimum safe intake of the gender, the realism check fails for
    every positive target period and every target weight, even when no
    weight is to be lost. *)
Theorem below_minimum_never_realistic (q : QuizData)
  (Hweeks : 0 < targetPeriodWeeks q)
  (Hlow : Arithmetic.TDEE q < Arithmetic.min_safe_intake (gender q)) :
  Arithmetic.unrealistic q = true.
Proof.
  unfold Arithmetic.unrealistic. apply orb_true_iff. right.
  apply ArithmeticFacts.Qlt_bool_iff.
  assert (Hdef : 0 <= Arithmetic.deficit_needed q).
  { unfold Arithmetic.deficit_needed.
    apply Qle_shift_div_l; [lra |].
    rewrite Qmult_0_l. apply ArithmeticFacts.total_calorie_gap_nonneg. }
  lra.
Qed.

Lemma below_minimum_never_realistic_witness :
  Arithmetic.unrealistic small_frame_quiz = true.
Proof.
  apply (below_minimum_never_realistic small_frame_quiz).
  - unfold Qlt; simpl; lia.
  - vm_compute. reflexivity.
Defined.

(** ** More on the trainer draw *)

Lemma count_occ_repeat (x y : string) (n : nat) :
  count_occ string_dec (repeat y n) x = if string_dec y x then n else 0%nat.
Proof.
  destruct (string_dec y x) as [-> | Hne].
  - apply count_occ_repeat_eq. reflexivity.
  - apply count_occ_repeat_neq. congruence.
Qed.

(** X22. "Specialists are 5 times more likely to be picked".  Whatever the
    target specialty, a trainer whose tags include it holds five slots of
    the weighted pool and a trainer whose tags do not holds one, so a
    specialist is drawn five times as often as a generalist. *)
Theorem specialist_five_slots
  (t : EarlierService.Specialty) (trainer : Trainer)
  (Hin : In trainer allTrainers) :
  count_occ string_dec (EarlierService.weightedPool t) (name trainer)
  = (if EarlierService.includes (specialties trainer) t then 5 else 1)%nat
  /\
  forall other : Trainer,
    In other allTrainers ->
    EarlierService.includes (specialties trainer) t = true ->
    EarlierService.includes (specialties other) t = false ->
    pool_probability (EarlierService.weightedPool t) (name trainer)
    == 5 * pool_probability (EarlierService.weightedPool t) (name other).
Proof.
  assert (Hcount : forall tr, In tr allTrainers ->
    count_occ string_dec (EarlierService.weightedPool t) (name tr)
    = (if EarlierService.includes (specialties tr) t then 5 else 1)%nat).
  { intros tr Htr.
    unfold EarlierService.weightedPool, allTrainers in *.
    cbn [flat_map]. rewrite app_nil_r, !count_occ_app.
    rewrite !count_occ_repeat.
    unfold EarlierService.specialistWeight, EarlierService.generalistWeight.
    simpl in Htr.
    destruct Htr as [<- | [<- | [<- | []]]]; simpl;
      destruct (EarlierService.includes _ t); reflexivity. }
  split; [apply Hcount; assumption |].
  intros other Hother Hspec Hgen.
  unfold pool_probability.
  rewrite (Hcount trainer Hin), (Hcount other Hother), Hspec, Hgen.
  destruct (weightedPool_sound t) as [Hne _].
  assert (Hlen : 0 < inject_Z (Z.of_nat
                       (List.length (EarlierService.weightedPool t)))).
  { destruct (EarlierService.weightedPool t); [congruence |].
    unfold Qlt; simpl; lia. }
  field. lra.
Qed.

Lemma specialist_five_slots_witness :
  count_occ string_dec
    (EarlierService.weightedPool (EarlierService.OwnValue "Bodybuilding"))
    "Saieel"
  = (if EarlierService.includes ["Weight Loss"; "Bodybuilding"]
          (EarlierService.OwnValue "Bodybuilding") then 5 else 1)%nat
  /\
  forall other : Trainer,
    In other allTrainers ->
    EarlierService.includes ["Weight Loss"; "Bodybuilding"]
      (EarlierService.OwnValue "Bodybuilding") = true ->
    EarlierService.includes (specialties other)
      (EarlierService.OwnValue "Bodybuilding") = false ->
    pool_probability
      (EarlierService.weightedPool (EarlierService.OwnValue "Bodybuilding"))
      "Saieel"
    == 5 * pool_probability
             (EarlierService.weightedPool
                (EarlierService.OwnValue "Bodybuilding"))
             (name other).
Proof.
  apply (specialist_five_slots (EarlierService.OwnValue "Bodybuilding")
           (mkTrainer "Saieel" ["Weight Loss"; "Bodybuilding"])).
  simpl. auto.
Defined.

Lemma own_property_unlisted (g : string) :
  ~ In g ["lose_weight"; "gain_muscle"; "get_shredded"] ->
  EarlierService.own_property EarlierService.goalToSpecialtyMap g = None.
Proof.
  intro Hnot. unfold EarlierService.goalToSpecialtyMap.
  cbn [EarlierService.own_property].
  assert (H1 : String.eqb "lose_weight" g = false).
  { apply String.eqb_neq. intro E. apply Hnot. simpl. auto. }
  assert (H2 : String.eqb "gain_muscle" g = false).
  { apply String.eqb_neq. intro E. apply Hnot. simpl. auto. }
  assert (H3 : String.eqb "get_shredded" g = false).
  { apply String.eqb_neq. intro E. apply Hnot. simpl. auto. }
  rewrite H1, H2, H3. reflexivity.
Qed.

(** X23. a goal outside the map gets the plain draw.  When the goal is
    absent or is not one of "lose_weight", "gain_muscle" and
    "get_shredded", the earlier service draws from the three names with one
    slot each (probability 1/3 each), and for the same value of the random
    source it assigns the very trainer the current service assigns. *)
Theorem unlisted_goal_uniform
  (userGoal : option string) (quizData : option QuizData) (r : Q)
  (Hunlisted :
     forall g, userGoal = Some g ->
               ~ In g ["lose_weight"; "gain_muscle"; "get_shredded"]) :
  EarlierService.pool_for userGoal = ["Athul"; "Athithiya"; "Saieel"] /\
  (forall n, In n ["Athul"; "Athithiya"; "Saieel"] ->
     pool_probability (EarlierService.pool_for userGoal) n == 1 # 3) /\
  EarlierService.assignedTrainerName userGoal r
  = CurrentService.assignedTrainerName quizData r.
Proof.
  assert (Hpool : EarlierService.pool_for userGoal
                  = ["Athul"; "Athithiya"; "Saieel"]).
  { unfold EarlierService.pool_for.
    destruct userGoal as [g |]; [| reflexivity].
    specialize (Hunlisted g eq_refl).
    destruct g as [| c g']; [reflexivity |].
    unfold EarlierService.targetSpecialty, EarlierService.map_get.
    rewrite (own_property_unlisted _ Hunlisted).
    destruct (existsb (String.eqb (String c g'))
                EarlierService.objectPrototypeKeys); reflexivity. }
  split; [exact Hpool |]. split.
  - intros n Hn. rewrite Hpool. simpl in Hn.
    destruct Hn as [<- | [<- | [<- | []]]]; vm_compute; reflexivity.
  - rewrite assignedTrainerName_pool, Hpool. reflexivity.
Qed.

Lemma unlisted_goal_uniform_witness :
  EarlierService.pool_for (Some "maintain_weight")
  = ["Athul"; "Athithiya"; "Saieel"] /\
  (forall n, In n ["Athul"; "Athithiya"; "Saieel"] ->
     pool_probability (EarlierService.pool_for (Some "maintain_weight")) n
     == 1 # 3) /\
  EarlierService.assignedTrainerName (Some "maintain_weight") (7 # 10)
  = CurrentService.assignedTrainerName (Some worked_example) (7 # 10).
Proof.
  apply (unlisted_goal_uniform (Some "maintain_weight")
           (Some worked_example) (7 # 10)).
  intros g Hg. inversion Hg; subst. simpl.
  intros [H | [H | [H | []]]]; discriminate.
Defined.

(** X24. the other two goals.  For "gain_muscle" the pool holds Athithiya
    and Saieel five times each and Athul once; for "get_shredded" it holds
    Athul and Athithiya five times each and Saieel once: eleven slots, the
    two specialists at 5/11 each and the third trainer at 1/11.  Over the
    three goals each trainer is the one generalist exactly once. *)
Theorem other_goals_distribution :
  let muscle := EarlierService.pool_for (Some "gain_muscle") in
  let shredded := EarlierService.pool_for (Some "get_shredded") in
  let weight := EarlierService.pool_for (Some "lose_weight") in
  muscle = (repeat "Athul" 1 ++ repeat "Athithiya" 5 ++ repeat "Saieel" 5)%list
  /\
  shredded
  = (repeat "Athul" 5 ++ repeat "Athithiya" 5 ++ repeat "Saieel" 1)%list /\
  pool_probability muscle "Athul" == 1 # 11 /\
  pool_probability muscle "Athithiya" == 5 # 11 /\
  pool_probability muscle "Saieel" == 5 # 11 /\
  pool_probability shredded "Athul" == 5 # 11 /\
  pool_probability shredded "Athithiya" == 5 # 11 /\
  pool_probability shredded "Saieel" == 1 # 11 /\
  pool_probability weight "Athul" + pool_probability muscle "Athul"
  + pool_probability shredded "Athul" == 1 /\
  pool_probability weight "Athithiya" + pool_probability muscle "Athithiya"
  + pool_probability shredded "Athithiya" == 1 /\
  pool_probability weight "Saieel" + pool_probability muscle "Saieel"
  + pool_probability shredded "Saieel" == 1.
Proof.
  cbv zeta. repeat split; vm_compute; reflexivity.
Qed.

(** X25. which slot a value of the random source selects.  For an array
    of at most 4096 elements, a slot k of it and a value r with
    k <= r * n <= k + 1 - e, where n is the length and e = 2^-40, the
    element returned by arr[Math.floor(r * n)] is the one in slot k.  The
    margin e below the next slot leaves out the values whose product with
    n the rounding of the multiplication may carry over the boundary (the
    bound on the length keeps both ends of the interval exact in the
    doubles of the code): up to that sliver each slot answers for an
    interval of r of length 1/n, which is what makes the draw uniform over
    the slots. *)
Theorem draw_selects_interval_slot (A : Type) (arr : list A) (r : Q)
  (k : nat)
  (Hlen : (List.length arr <= 4096)%nat)
  (Hk : (k < List.length arr)%nat)
  (Hlo : inject_Z (Z.of_nat k) <= r * inject_Z (Z.of_nat (List.length arr)))
  (Hhi : r * inject_Z (Z.of_nat (List.length arr))
         <= inject_Z (Z.of_nat k + 1) - (1 # 1099511627776)) :
  exists x : A, nth_error arr k = Some x /\ random_element arr r = Some x.
Proof.
  destruct (nth_error arr k) as [x |] eqn:Hx.
  - exists x. split; [reflexivity |].
    rewrite <- Hx. apply random_element_slot.
    + exact Hlo.
    + assert (He : 0 < (1 # 1099511627776)) by reflexivity. lra.
  - apply nth_error_None in Hx. lia.
Qed.

Lemma draw_selects_interval_slot_witness :
  exists x : string,
    nth_error ["Athul"; "Athithiya"; "Saieel"] 1 = Some x /\
    random_element ["Athul"; "Athithiya"; "Saieel"] (1 # 2) = Some x.
Proof.
  apply (draw_selects_interval_slot string
           ["Athul"; "Athithiya"; "Saieel"] (1 # 2) 1%nat).
  - simpl; lia.
  - simpl; lia.
  - vm_compute. discriminate.
  - vm_compute. discriminate.
Defined.

(** ** [renderMarkdown] *)

Example render_examples :
  Markdown.renderMarkdown "Eat more protein." = "Eat more protein." /\
  Markdown.renderMarkdown "# Plan"
  = "<h1 class=" ++ Markdown.quote ++ "text-3xl font-bold text-gray-900 mb-6"
    ++ Markdown.quote ++ ">Plan</h1>" /\
  Markdown.renderMarkdown ("a" ++ newline ++ "b") = "a<br />b" /\
  Markdown.renderMarkdown "**a** and **b**"
  = "<strong class=" ++ Markdown.quote ++ "font-semibold text-gray-900"
    ++ Markdown.quote ++ ">a** and **b</strong>" /\
  Markdown.renderMarkdown "<img src=x onerror=alert(1)>"
  = "<img src=x onerror=alert(1)>".
Proof. repeat split; vm_compute; reflexivity. Qed.

Lemma contains_char_app (c : ascii) (a b : string) :
  contains_char c (a ++ b) = contains_char c a || contains_char c b.
Proof.
  induction a as [| x a IH]; simpl; [reflexivity |].
  rewrite IH. apply orb_assoc.
Qed.

Lemma scan_line_break_no_newline (s : string) :
  forall skip terminator line_start,
    contains_char (byte 10)
      (Markdown.scan Markdown.line_break skip terminator line_start s)
    = false.
Proof.
  induction s as [| c rest IH]; intros skip terminator line_start;
    [reflexivity |].
  cbn [Markdown.scan]. destruct skip as [| k]; [| apply IH].
  unfold Markdown.line_break at 1. unfold starts_with, newline.
  cbn [strip_prefix].
  destruct (Ascii.eqb (byte 10) c) eqn:Hc.
  - rewrite contains_char_app, IH. reflexivity.
  - cbn [contains_char]. rewrite Hc, IH. reflexivity.
Qed.

(** X26. no line feed survives.  Whatever the markdown, the HTML that
    [renderMarkdown] returns holds no line feed character: the last of its
    replacements turns every one of them into a break tag. *)
Theorem rendered_has_no_line_feed (markdown : string) :
  contains_char (byte 10) (Markdown.renderMarkdown markdown) = false.
Proof.
  unfold Markdown.renderMarkdown, Markdown.steps. cbn [fold_left].
  unfold Markdown.replace_all at 1.
  apply scan_line_break_no_newline.
Qed.

(** Where an expression never matches, the scan copies its input. *)
Lemma scan_never_matches (e : Markdown.Expression) (s : string) :
  never_matches e s ->
  forall terminator line_start,
    Markdown.scan e 0 terminator line_start s = s.
Proof.
  induction s as [| c rest IH]; intros Hnever terminator line_start;
    [reflexivity |].
  destruct Hnever as [Hhere Hrest].
  cbn [Markdown.scan]. rewrite Hhere, (IH Hrest). reflexivity.
Qed.

Lemma replace_all_never_matches (e : Markdown.Expression) (s : string) :
  never_matches e s -> Markdown.replace_all e s = s.
Proof. intro H. apply scan_never_matches. assumption. Qed.

(** An expression that needs a given first character, or a given prefix,
    has nothing to match in a text without it. *)
Lemma never_matches_without_char (e : Markdown.Expression) (c : ascii) :
  (forall line_start x rest, Ascii.eqb c x = false ->
     e line_start (String x rest) = None) ->
  (forall line_start, e line_start "" = None) ->
  forall s, contains_char c s = false -> never_matches e s.
Proof.
  intros Hhead Hempty s. induction s as [| x rest IH]; intro Hs.
  - split; [exact Hempty | exact I].
  - cbn [contains_char] in Hs. apply orb_false_iff in Hs.
    destruct Hs as [Hx Hrest].
    split; [intro ls; apply Hhead; assumption | apply IH; assumption].
Qed.

Lemma never_matches_without_prefix (e : Markdown.Expression) (p : string) :
  (forall line_start s, starts_with p s = false -> e line_start s = None) ->
  forall s, Markdown.occurs p s = false -> never_matches e s.
Proof.
  intros Hhead s. induction s as [| x rest IH]; intro Hs.
  - cbn [Markdown.occurs] in Hs. apply orb_false_iff in Hs.
    split; [intro ls; apply Hhead; apply Hs | exact I].
  - cbn [Markdown.occurs] in Hs. apply orb_false_iff in Hs.
    destruct Hs as [Hx Hrest].
    split; [intro ls; apply Hhead; assumption | apply IH; assumption].
Qed.

Lemma strip_prefix_first_char (c x : ascii) (p rest : string) :
  Ascii.eqb c x = false -> strip_prefix (String c p) (String x rest) = None.
Proof. intro H. cbn [strip_prefix]. rewrite H. reflexivity. Qed.

Lemma heading_never (marker opening closing s : string) :
  contains_char "#" s = false ->
  never_matches (Markdown.heading (String "#" marker) opening closing) s.
Proof.
  apply never_matches_without_char.
  - intros ls x rest Hx. unfold Markdown.heading.
    rewrite (strip_prefix_first_char _ _ _ _ Hx).
    destruct ls; reflexivity.
  - intro ls. destruct ls; reflexivity.
Qed.

Lemma starts_with_false_strip (p s : string) :
  starts_with p s = false -> strip_prefix p s = None.
Proof.
  unfold starts_with. destruct (strip_prefix p s); [discriminate | reflexivity].
Qed.

(** X27. text without markup comes out as it went in.  A text with no
    hash sign, no star and no line feed, in which neither "<li" nor "</li>"
    nor "</ul>" occurs, is returned unchanged by [renderMarkdown].  Nothing
    is escaped on the way: such a text may hold tags and attributes of its
    own, and they reach the page as they are. *)
Theorem unmarked_text_unchanged (text : string)
  (Hhash : contains_char "#" text = false)
  (Hstar : contains_char "*" text = false)
  (Hfeed : contains_char (byte 10) text = false)
  (Hitem : Markdown.occurs "<li" text = false)
  (Hclose : Markdown.occurs "</li>" text = false)
  (Hlist : Markdown.occurs "</ul>" text = false) :
  Markdown.renderMarkdown text = text.
Proof.
  unfold Markdown.renderMarkdown, Markdown.steps. cbn [fold_left].
  rewrite (replace_all_never_matches Markdown.h3);
    [| apply heading_never; assumption].
  rewrite (replace_all_never_matches Markdown.h2);
    [| apply heading_never; assumption].
  rewrite (replace_all_never_matches Markdown.h1);
    [| apply heading_never; assumption].
  rewrite (replace_all_never_matches Markdown.bold).
  2:{ apply (never_matches_without_char _ "*"); [| reflexivity |assumption].
      intros ls x rest Hx. unfold Markdown.bold.
      rewrite (strip_prefix_first_char _ _ _ _ Hx). reflexivity. }
  rewrite (replace_all_never_matches Markdown.list_item).
  2:{ apply (never_matches_without_char _ (byte 10));
        [| reflexivity | assumption].
      intros ls x rest Hx. unfold Markdown.list_item, newline.
      rewrite (strip_prefix_first_char _ _ _ _ Hx). reflexivity. }
  rewrite (replace_all_never_matches Markdown.close_item).
  2:{ apply (never_matches_without_prefix _ "<li"); [| assumption].
      intros ls s Hs. unfold Markdown.close_item.
      rewrite (starts_with_false_strip _ _ Hs). reflexivity. }
  rewrite (replace_all_never_matches Markdown.close_list).
  2:{ apply (never_matches_without_prefix _ "</li>"); [| assumption].
      intros ls s Hs. unfold Markdown.close_list.
      rewrite (starts_with_false_strip _ _ Hs). reflexivity. }
  rewrite (replace_all_never_matches Markdown.open_list).
  2:{ apply (never_matches_without_prefix _ "<li"); [| assumption].
      intros ls s Hs. unfold Markdown.open_list.
      rewrite Hs. reflexivity. }
  rewrite (replace_all_never_matches Markdown.merge_lists).
  2:{ apply (never_matches_without_prefix _ "</ul>"); [| assumption].
      intros ls s Hs. unfold Markdown.merge_lists.
      rewrite (starts_with_false_strip _ _ Hs). reflexivity. }
  apply replace_all_never_matches.
  apply (never_matches_without_char _ (byte 10)); [| reflexivity | assumption].
  intros ls x rest Hx. unfold Markdown.line_break, starts_with, newline.
  rewrite (strip_prefix_first_char _ _ _ _ Hx). reflexivity.
Qed.

Lemma unmarked_text_unchanged_witness :
  Markdown.renderMarkdown "<script>alert(document.cookie)</script>"
  = "<script>alert(document.cookie)</script>".
Proof.
  apply (unmarked_text_unchanged "<script>alert(document.cookie)</script>");
    reflexivity.
Defined.
